(** * Service manifests and default instrumentation of the CloudWatch agent operator

    A shallow embedding of
    - [internal/manifests/collector/service.go] (package [collector]):
      [Service], [HeadlessService], [MonitoringService], [filterPort],
      [extractPortNumbersAndNames];
    - the default instrumentation builder (package [instrumentation]):
      [getDefaultInstrumentation].

    Go values are modelled as follows.
    - [int32] is [Z]; the code does no arithmetic on ports, so no wrap-around
      is involved, and port numbers are only compared and printed.
    - [map[K]V] is [gmap K V]; reading a missing key of a [map[K]bool]
      yields [false], see [mapBool].
    - a pointer result is an [option] ([nil] is [None]); a Go result made of
      a pointer and an [error] is a pair [option T * option error].
    - the [logr.Logger] of [params.Log] is modelled by the list of records
      the function emits, returned next to its result; a callee that is
      handed the logger contributes the records it writes. *)

From stdpp Require Import base numbers option list strings gmap fin_maps pretty.

Open Scope string_scope.
Open Scope Z_scope.
Open Scope list_scope.

(** ** Go runtime and library types *)

(** A Go [error] value, identified with its message. *)
Definition error := string.

Module errors.
Definition New (text : string) : error := text.
End errors.

Module logr.
(** One call on the logger: [logger.V(level).Info(msg, keysAndValues...)]
    or [logger.Error(err, msg)]. *)
Inductive Entry :=
| Info (level : nat) (msg : string) (keysAndValues : list (string * string))
| Error (err : error) (msg : string).
End logr.

Module intstr.
(** [k8s.io/apimachinery/pkg/util/intstr.IntOrString] *)
Inductive IntOrString :=
| FromInt (IntVal : Z)
| FromString (StrVal : string).
End intstr.

Module metav1.
Module TypeMeta.
Record t := mk { Kind : string; APIVersion : string }.
End TypeMeta.

(** The fields of [ObjectMeta] that the two packages read or write. *)
Module ObjectMeta.
Record t := mk {
  Name : string;
  Namespace : string;
  Labels : gmap string string;
  Annotations : gmap string string
}.
End ObjectMeta.
End metav1.

Module corev1.
Module ServicePort.
Record t := mk {
  Name : string;
  Protocol : string;
  AppProtocol : option string;
  Port : Z;
  TargetPort : intstr.IntOrString;
  NodePort : Z
}.

(** [candidate.Name = fallbackName] on a copy of the struct. *)
Definition withName (p : t) (n : string) : t :=
  mk n (Protocol p) (AppProtocol p) (Port p) (TargetPort p) (NodePort p).
End ServicePort.

Definition ServiceInternalTrafficPolicy := string.
Definition ServiceInternalTrafficPolicyCluster : ServiceInternalTrafficPolicy := "Cluster".
Definition ServiceInternalTrafficPolicyLocal : ServiceInternalTrafficPolicy := "Local".

Module ServiceSpec.
Record t := mk {
  Ports : list ServicePort.t;
  Selector : gmap string string;
  ClusterIP : string;
  InternalTrafficPolicy : option ServiceInternalTrafficPolicy
}.
End ServiceSpec.

Module Service.
Record t := mk {
  ObjectMeta : metav1.ObjectMeta.t;
  Spec : ServiceSpec.t
}.
End Service.

Module EnvVar.
Record t := mk { Name : string; Value : string }.
End EnvVar.
End corev1.

(** ** [apis/v1alpha1] *)

Module v1alpha1.
(** [type Mode string] *)
Definition Mode := string.

Module AmazonCloudWatchAgentSpec.
Record t := mk {
  Ports : list corev1.ServicePort.t;
  Mode : Mode;
  Image : string;
  Config : string
}.
End AmazonCloudWatchAgentSpec.

Module AmazonCloudWatchAgent.
Record t := mk {
  ObjectMeta : metav1.ObjectMeta.t;
  Spec : AmazonCloudWatchAgentSpec.t
}.
End AmazonCloudWatchAgent.

(** The propagator constants the default instrumentation lists. *)
Inductive Propagator := TraceContext | Baggage | B3 | XRay.

Module Java.
Record t := mk { Image : string; Env : list corev1.EnvVar.t }.
End Java.

Module Python.
Record t := mk { Image : string; Env : list corev1.EnvVar.t }.
End Python.

Module InstrumentationSpec.
Record t := mk {
  Propagators : list Propagator;
  Java : Java.t;
  Python : Python.t
}.
End InstrumentationSpec.

Module Instrumentation.
Record t := mk {
  TypeMeta : metav1.TypeMeta.t;
  ObjectMeta : metav1.ObjectMeta.t;
  Spec : InstrumentationSpec.t
}.
End Instrumentation.
End v1alpha1.

Module manifests.
(** [manifests.Params]: the instance being reconciled.  The [Log] field is
    modelled by the records each builder returns. *)
Module Params.
Record t := mk { OtelCol : v1alpha1.AmazonCloudWatchAgent.t }.
End Params.
End manifests.

(** ** Collaborators of package [collector]

    Helpers of the repository that [service.go] calls and whose code lies in
    other packages ([naming], [manifestutils], [adapters], [constants],
    [v1alpha1]) are taken as parameters. *)
Module deps.
Record t := mk {
  (** [naming.Service], [naming.HeadlessService], [naming.MonitoringService] *)
  naming_Service : string → string;
  naming_HeadlessService : string → string;
  naming_MonitoringService : string → string;
  (** [manifestutils.Labels] and [manifestutils.SelectorLabels];
      both return a non-nil map *)
  manifestutils_Labels :
    metav1.ObjectMeta.t → string → string → string → list string → gmap string string;
  manifestutils_SelectorLabels : metav1.ObjectMeta.t → string → gmap string string;
  (** [adapters.ConfigFromString] and [adapters.ConfigToMetricsPort]:
      [inl err] when the returned error is non-nil *)
  Config : Type;
  adapters_ConfigFromString : string → error + Config;
  adapters_ConfigToMetricsPort : Config → error + Z;
  (** the records [adapters.ConfigToMetricsPort] writes to the logger it is
      handed *)
  adapters_ConfigToMetricsPort_log : Config → list logr.Entry;
  (** [constants.CloudwatchAgentPorts] *)
  constants_CloudwatchAgentPorts : list corev1.ServicePort.t;
  (** [ComponentAmazonCloudWatchAgent] *)
  ComponentAmazonCloudWatchAgent : string;
  (** [v1alpha1.ModeDaemonSet] *)
  v1alpha1_ModeDaemonSet : v1alpha1.Mode
}.
End deps.

(** ** Package [collector] *)

Module collector.
Import corev1.

Definition headlessLabel : string := "operator.opentelemetry.io/collector-headless-service".
Definition headlessExists : string := "Exists".

(** [m[k]] on a [map[K]bool]: a missing key reads as [false]. *)
Definition mapBool `{Countable K} (m : gmap K bool) (k : K) : bool :=
  default false (m !! k).

(** [fmt.Sprintf("port-%d", port)] *)
Definition Sprintf_port (port : Z) : string := "port-" +:+ pretty port.

(** [fmt.Sprintf("%s-tls", name)] *)
Definition Sprintf_tls (name : string) : string := name +:+ "-tls".

Definition extractPortNumbersAndNames (ports : list ServicePort.t)
  : gmap Z bool * gmap string bool :=
  foldl (λ '(numbers, names) port,
           (<[ServicePort.Port port := true]> numbers,
            <[ServicePort.Name port := true]> names))
        (∅, ∅) ports.

Definition filterPort (candidate : ServicePort.t)
    (portNumbers : gmap Z bool) (portNames : gmap string bool)
  : option ServicePort.t * list logr.Entry :=
  if mapBool portNumbers (ServicePort.Port candidate) then (None, [])
  else if mapBool portNames (ServicePort.Name candidate) then
    let fallbackName := Sprintf_port (ServicePort.Port candidate) in
    if mapBool portNames fallbackName then
      (None,
       [logr.Info 2 "a port name specified in the CR clashes with an inferred port name, and the fallback port name clashes with another port name! Skipping this port."
          [("inferred-port-name", ServicePort.Name candidate);
           ("fallback-port-name", fallbackName)]])
    else (Some (ServicePort.withName candidate fallbackName), [])
  else (Some candidate, []).

Section WithDeps.
Variable X : deps.t.

(** The loop of [Service] over the inferred ports: surviving ports are
    appended to [resultingInferredPorts], records to the log. *)
Definition filterInferred (portNumbers : gmap Z bool) (portNames : gmap string bool)
    (ports : list ServicePort.t) : list ServicePort.t * list logr.Entry :=
  foldl (λ '(resultingInferredPorts, log) inferred,
           match filterPort inferred portNumbers portNames with
           | (Some filtered, l) => (resultingInferredPorts ++ [filtered], log ++ l)
           | (None, l) => (resultingInferredPorts, log ++ l)
           end)
        ([], []) ports.

(** The value of [ports] when [Service] reaches the emptiness test. *)
Definition resolvePorts (inferred declared : list ServicePort.t)
  : list ServicePort.t * list logr.Entry :=
  if (0 <? length declared)%nat then
    let '(portNumbers, portNames) := extractPortNumbersAndNames declared in
    let '(resultingInferredPorts, log) := filterInferred portNumbers portNames inferred in
    (declared ++ resultingInferredPorts, log)
  else (inferred, []).

Definition Service (params : manifests.Params.t)
  : (option Service.t * option error) * list logr.Entry :=
  let OtelCol := manifests.Params.OtelCol params in
  let meta := v1alpha1.AmazonCloudWatchAgent.ObjectMeta OtelCol in
  let spec := v1alpha1.AmazonCloudWatchAgent.Spec OtelCol in
  let name := deps.naming_Service X (metav1.ObjectMeta.Name meta) in
  let labels :=
    deps.manifestutils_Labels X meta name (v1alpha1.AmazonCloudWatchAgentSpec.Image spec)
      (deps.ComponentAmazonCloudWatchAgent X) [] in
  let '(ports, log) :=
    resolvePorts (deps.constants_CloudwatchAgentPorts X)
                 (v1alpha1.AmazonCloudWatchAgentSpec.Ports spec) in
  if (length ports =? 0)%nat then
    ((None, None),
     log ++ [logr.Info 1 "the instance's configuration didn't yield any ports to open, skipping service"
               [("instance.name", metav1.ObjectMeta.Name meta);
                ("instance.namespace", metav1.ObjectMeta.Namespace meta)]])
  else
    let trafficPolicy :=
      if decide (v1alpha1.AmazonCloudWatchAgentSpec.Mode spec = deps.v1alpha1_ModeDaemonSet X)
      then ServiceInternalTrafficPolicyLocal
      else ServiceInternalTrafficPolicyCluster in
    ((Some (Service.mk
              (metav1.ObjectMeta.mk
                 (deps.naming_Service X (metav1.ObjectMeta.Name meta))
                 (metav1.ObjectMeta.Namespace meta)
                 labels
                 (metav1.ObjectMeta.Annotations meta))
              (ServiceSpec.mk
                 ports
                 (deps.manifestutils_SelectorLabels X meta (deps.ComponentAmazonCloudWatchAgent X))
                 ""
                 (Some trafficPolicy))),
      None),
     log).

(** The annotation map [HeadlessService] builds: seeded with the
    serving-certificate entry, then every entry of [h.Annotations] is
    stored into it ([for k, v := range h.Annotations]). *)
Definition headlessAnnotations (hName : string) (hAnnotations : gmap string string)
  : gmap string string :=
  map_fold (λ k v annotations, <[k := v]> annotations)
           {[ "service.beta.openshift.io/serving-cert-secret-name" := Sprintf_tls hName ]}
           hAnnotations.

Definition HeadlessService (params : manifests.Params.t)
  : (option Service.t * option error) * list logr.Entry :=
  match Service params with
  | ((Some h, None), log) =>
      let meta := Service.ObjectMeta h in
      let hName :=
        deps.naming_HeadlessService X
          (metav1.ObjectMeta.Name
             (v1alpha1.AmazonCloudWatchAgent.ObjectMeta (manifests.Params.OtelCol params))) in
      let hLabels := <[headlessLabel := headlessExists]> (metav1.ObjectMeta.Labels meta) in
      let annotations := headlessAnnotations hName (metav1.ObjectMeta.Annotations meta) in
      let spec := Service.Spec h in
      ((Some (Service.mk
                (metav1.ObjectMeta.mk hName (metav1.ObjectMeta.Namespace meta) hLabels annotations)
                (ServiceSpec.mk
                   (ServiceSpec.Ports spec)
                   (ServiceSpec.Selector spec)
                   "None"
                   (ServiceSpec.InternalTrafficPolicy spec))),
        None),
       log)
  | ((h, err), log) => ((h, err), log)
  end.

Definition MonitoringService (params : manifests.Params.t)
  : (option Service.t * option error) * list logr.Entry :=
  let OtelCol := manifests.Params.OtelCol params in
  let meta := v1alpha1.AmazonCloudWatchAgent.ObjectMeta OtelCol in
  let spec := v1alpha1.AmazonCloudWatchAgent.Spec OtelCol in
  let name := deps.naming_MonitoringService X (metav1.ObjectMeta.Name meta) in
  let labels :=
    deps.manifestutils_Labels X meta name (v1alpha1.AmazonCloudWatchAgentSpec.Image spec)
      (deps.ComponentAmazonCloudWatchAgent X) [] in
  match deps.adapters_ConfigFromString X (v1alpha1.AmazonCloudWatchAgentSpec.Config spec) with
  | inl err => ((None, Some err), [logr.Error err "couldn't extract the configuration"])
  | inr c =>
      match deps.adapters_ConfigToMetricsPort X c with
      | inl err => ((None, Some err), deps.adapters_ConfigToMetricsPort_log X c)
      | inr metricsPort =>
          ((Some (Service.mk
                    (metav1.ObjectMeta.mk name (metav1.ObjectMeta.Namespace meta) labels
                       (metav1.ObjectMeta.Annotations meta))
                    (ServiceSpec.mk
                       [ServicePort.mk "monitoring" "" None metricsPort (intstr.FromInt 0) 0]
                       (deps.manifestutils_SelectorLabels X meta (deps.ComponentAmazonCloudWatchAgent X))
                       ""
                       None)),
            None),
           deps.adapters_ConfigToMetricsPort_log X c)
      end
  end.
End WithDeps.
End collector.

(** ** Package [instrumentation] *)

Module instrumentation.
Import corev1.

Definition defaultAPIVersion := "cloudwatch.aws.amazon.com/v1alpha1".
Definition defaultInstrumenation := "java-instrumentation".
Definition defaultNamespace := "default".
Definition defaultKind := "Instrumentation".

Definition otelSampleEnabledKey := "OTEL_SMP_ENABLED".
Definition otelSampleEnabledDefaultValue := "true".
Definition otelTracesSamplerArgKey := "OTEL_TRACES_SAMPLER_ARG".
Definition otelTracesSamplerArgDefaultValue :=
  "endpoint=http://cloudwatch-agent.amazon-cloudwatch:2000".
Definition otelTracesSamplerKey := "OTEL_TRACES_SAMPLER".
Definition otelTracesSamplerDefaultValue := "xray".
Definition otelExporterOtlpProtocolKey := "OTEL_EXPORTER_OTLP_PROTOCOL".
Definition otelExporterOtlpProtocolValue := "http/protobuf".
Definition otelExporterTracesEndpointKey := "OTEL_EXPORTER_OTLP_TRACES_ENDPOINT".
Definition otelExporterTracesEndpointDefaultValue :=
  "http://cloudwatch-agent.amazon-cloudwatch:4316/v1/traces".
Definition otelExporterSmpEndpointKey := "OTEL_AWS_SMP_EXPORTER_ENDPOINT".
Definition otelExporterSmpEndpointDefaultValue :=
  "http://cloudwatch-agent.amazon-cloudwatch:4315".
Definition otelExporterMetricKey := "OTEL_METRICS_EXPORTER".
Definition otelExporterMetricDefaultValue := "none".

Definition otelPythonDistro := "OTEL_PYTHON_DISTRO".
Definition otelPythonDistroDefaultValue := "aws_distro".
Definition otelPythonConfigurator := "OTEL_PYTHON_CONFIGURATOR".
Definition otelPythonConfiguratorDefaultValue := "aws_configurator".

(** [os.LookupEnv] reads the process environment, here a map from
    variable names to values; a variable set to the empty string is
    present. *)
Definition LookupEnv (environ : gmap string string) (key : string) : option string :=
  environ !! key.

Definition getDefaultInstrumentation (environ : gmap string string)
  : option v1alpha1.Instrumentation.t * option error :=
  match LookupEnv environ "AUTO_INSTRUMENTATION_JAVA" with
  | None => (None, Some (errors.New "unable to determine java instrumentation image"))
  | Some javaInstrumentationImage =>
      match LookupEnv environ "AUTO_INSTRUMENTATION_PYTHON" with
      | None => (None, Some (errors.New "unable to determine python instrumentation image"))
      | Some pythonInstrumentationImage =>
          (Some (v1alpha1.Instrumentation.mk
                   (metav1.TypeMeta.mk defaultKind defaultAPIVersion)
                   (metav1.ObjectMeta.mk defaultInstrumenation defaultNamespace ∅ ∅)
                   (v1alpha1.InstrumentationSpec.mk
                      [v1alpha1.TraceContext; v1alpha1.Baggage; v1alpha1.B3; v1alpha1.XRay]
                      (v1alpha1.Java.mk javaInstrumentationImage
                         [EnvVar.mk otelSampleEnabledKey otelSampleEnabledDefaultValue;
                          EnvVar.mk otelTracesSamplerArgKey otelTracesSamplerArgDefaultValue;
                          EnvVar.mk otelTracesSamplerKey otelTracesSamplerDefaultValue;
                          EnvVar.mk otelExporterOtlpProtocolKey otelExporterOtlpProtocolValue;
                          EnvVar.mk otelExporterTracesEndpointKey otelExporterTracesEndpointDefaultValue;
                          EnvVar.mk otelExporterSmpEndpointKey otelExporterSmpEndpointDefaultValue;
                          EnvVar.mk otelExporterMetricKey otelExporterMetricDefaultValue])
                      (v1alpha1.Python.mk pythonInstrumentationImage
                         [EnvVar.mk otelSampleEnabledKey otelSampleEnabledDefaultValue;
                          EnvVar.mk otelTracesSamplerArgKey otelTracesSamplerArgDefaultValue;
                          EnvVar.mk otelExporterOtlpProtocolKey otelExporterOtlpProtocolValue;
                          EnvVar.mk otelExporterTracesEndpointKey otelExporterTracesEndpointDefaultValue;
                          EnvVar.mk otelExporterSmpEndpointKey otelExporterSmpEndpointDefaultValue;
                          EnvVar.mk otelExporterMetricKey otelExporterMetricDefaultValue;
                          EnvVar.mk otelPythonDistro otelPythonDistroDefaultValue;
                          EnvVar.mk otelPythonConfigurator otelPythonConfiguratorDefaultValue]))),
           None)
      end
  end.
End instrumentation.

(** ** Concrete inputs

    An instance of the collaborators and a few specifications on which the
    builders are run below. *)

Module example.
Import corev1.

Definition port (name : string) (number : Z) : ServicePort.t :=
  ServicePort.mk name "TCP" None number (intstr.FromInt number) 0.

(** Collaborators with a chosen built-in port table: the empty
    configuration text does not parse, the text [8888] has metrics port
    8888, and any other text has no metrics port, which the port lookup
    reports on the logger. *)
Definition collaborators (builtin : list ServicePort.t) : deps.t :=
  deps.mk
    (λ n, n)
    (λ n, n +:+ "-headless")
    (λ n, n +:+ "-monitoring")
    (λ meta name image component _,
       <["app.kubernetes.io/name" := name]> (metav1.ObjectMeta.Labels meta))
    (λ meta component, {[ "app.kubernetes.io/component" := component ]})
    string
    (λ text, if decide (text = "") then inl "empty configuration" else inr text)
    (λ c, match c with
          | "8888" => inr 8888
          | _ => inl "no metrics port"
          end)
    (λ c, match c with
          | "8888" => []
          | _ => [logr.Info 0 "no metrics port in the configuration" [("config", c)]]
          end)
    builtin
    "amazon-cloudwatch-agent"
    "daemonset".

Definition instance (annotations : gmap string string) (mode : v1alpha1.Mode)
    (config : string) (declared : list ServicePort.t) : manifests.Params.t :=
  manifests.Params.mk
    (v1alpha1.AmazonCloudWatchAgent.mk
       (metav1.ObjectMeta.mk "agent" "monitoring-ns" ∅ annotations)
       (v1alpha1.AmazonCloudWatchAgentSpec.mk declared mode "agent:latest" config)).
End example.

(** ** Vocabulary of the statements *)

Module resolver.
Import corev1 collector.

(** What [filterPort] returns for one inferred port when the two
    membership maps are those [Service] extracts from the declared list. *)
Definition keep (declared : list ServicePort.t) (candidate : ServicePort.t)
  : option ServicePort.t :=
  (filterPort candidate (extractPortNumbersAndNames declared).1
                        (extractPortNumbersAndNames declared).2).1.

(** No two entries share a numeric port and no two share a name. *)
Definition noDuplicates (ports : list ServicePort.t) : Prop :=
  NoDup (ServicePort.Port <$> ports) ∧ NoDup (ServicePort.Name <$> ports).

(** A surviving port is the inferred port itself or the inferred port
    under its fallback name. *)
Definition survivorOf (q p : ServicePort.t) : Prop :=
  q = p ∨ q = ServicePort.withName p (Sprintf_port (ServicePort.Port p)).
End resolver.

Module contract.
Import corev1.

(** Key of the serving-certificate annotation of the headless service. *)
Definition servingCertKey : string := "service.beta.openshift.io/serving-cert-secret-name".

(** The seven environment entries section 4.3 of the specification
    enumerates for both runtimes: sampler enablement, sampler argument
    endpoint, sampler selection, exporter protocol, trace-exporter
    endpoint, secondary collector endpoint, metrics-exporter disablement. *)
Definition commonEnv : list EnvVar.t :=
  [EnvVar.mk "OTEL_SMP_ENABLED" "true";
   EnvVar.mk "OTEL_TRACES_SAMPLER_ARG" "endpoint=http://cloudwatch-agent.amazon-cloudwatch:2000";
   EnvVar.mk "OTEL_TRACES_SAMPLER" "xray";
   EnvVar.mk "OTEL_EXPORTER_OTLP_PROTOCOL" "http/protobuf";
   EnvVar.mk "OTEL_EXPORTER_OTLP_TRACES_ENDPOINT"
     "http://cloudwatch-agent.amazon-cloudwatch:4316/v1/traces";
   EnvVar.mk "OTEL_AWS_SMP_EXPORTER_ENDPOINT" "http://cloudwatch-agent.amazon-cloudwatch:4315";
   EnvVar.mk "OTEL_METRICS_EXPORTER" "none"].

(** The two distribution and configurator entries of one runtime. *)
Definition distroEnv : list EnvVar.t :=
  [EnvVar.mk "OTEL_PYTHON_DISTRO" "aws_distro";
   EnvVar.mk "OTEL_PYTHON_CONFIGURATOR" "aws_configurator"].

Definition javaEnv (d : v1alpha1.Instrumentation.t) : list EnvVar.t :=
  v1alpha1.Java.Env (v1alpha1.InstrumentationSpec.Java (v1alpha1.Instrumentation.Spec d)).

Definition pythonEnv (d : v1alpha1.Instrumentation.t) : list EnvVar.t :=
  v1alpha1.Python.Env (v1alpha1.InstrumentationSpec.Python (v1alpha1.Instrumentation.Spec d)).

(** Both runtime blocks carry the seven common entries in order, and one
    of the two, and only one, carries the two further entries after them. *)
Definition uniformBlocks (d : v1alpha1.Instrumentation.t) : Prop :=
  (javaEnv d = commonEnv ∧ pythonEnv d = commonEnv ++ distroEnv)
  ∨ (javaEnv d = commonEnv ++ distroEnv ∧ pythonEnv d = commonEnv).
End contract.

(** * Properties *)

Module Import facts.
Import corev1 collector resolver.

(** ** Membership sets built from the declared ports *)

Lemma mapBool_insert_true `{Countable K} (m : gmap K bool) (i k : K) :
  mapBool (<[i := true]> m) k = true ↔ i = k ∨ mapBool m k = true.
Proof.
  unfold mapBool. destruct (decide (i = k)) as [->|Hne].
  - rewrite lookup_insert_eq. simpl. split; auto.
  - rewrite lookup_insert_ne by done. split; [by right | by intros [?|?]].
Qed.

Lemma extract_from (ports : list ServicePort.t) (numbers : gmap Z bool)
    (names : gmap string bool) (n : Z) (s : string) :
  let r := foldl (λ '(numbers, names) port,
                    (<[ServicePort.Port port := true]> numbers,
                     <[ServicePort.Name port := true]> names))
                 (numbers, names) ports in
  (mapBool r.1 n = true ↔ mapBool numbers n = true ∨ n ∈ ServicePort.Port <$> ports) ∧
  (mapBool r.2 s = true ↔ mapBool names s = true ∨ s ∈ ServicePort.Name <$> ports).
Proof.
  revert numbers names. induction ports as [|p ports IH]; intros numbers names; simpl.
  - rewrite !elem_of_nil. tauto.
  - destruct (IH (<[ServicePort.Port p := true]> numbers)
                 (<[ServicePort.Name p := true]> names)) as [IHn IHs].
    simpl in IHn, IHs. rewrite IHn, IHs, !mapBool_insert_true, !elem_of_cons.
    split; intuition congruence.
Qed.

Lemma extract_numbers (declared : list ServicePort.t) (n : Z) :
  mapBool (extractPortNumbersAndNames declared).1 n = true
  ↔ n ∈ ServicePort.Port <$> declared.
Proof.
  destruct (extract_from declared ∅ ∅ n "") as [Hn _]. unfold extractPortNumbersAndNames.
  simpl in Hn. rewrite Hn. unfold mapBool. rewrite lookup_empty. simpl.
  split; [by intros [?|?] | by right].
Qed.

Lemma extract_names (declared : list ServicePort.t) (s : string) :
  mapBool (extractPortNumbersAndNames declared).2 s = true
  ↔ s ∈ ServicePort.Name <$> declared.
Proof.
  destruct (extract_from declared ∅ ∅ 0 s) as [_ Hs]. unfold extractPortNumbersAndNames.
  simpl in Hs. rewrite Hs. unfold mapBool. rewrite lookup_empty. simpl.
  split; [by intros [?|?] | by right].
Qed.

(** ** The decision taken for one inferred port, as a function of the
    declared list *)

Lemma keep_cases (declared : list ServicePort.t) (candidate : ServicePort.t) :
  let fallbackName := Sprintf_port (ServicePort.Port candidate) in
  ((ServicePort.Port candidate ∈ (ServicePort.Port <$> declared))
     ∧ keep declared candidate = None)
  ∨ ((ServicePort.Port candidate ∉ (ServicePort.Port <$> declared))
     ∧ (ServicePort.Name candidate ∈ (ServicePort.Name <$> declared))
     ∧ (fallbackName ∈ (ServicePort.Name <$> declared))
     ∧ keep declared candidate = None)
  ∨ ((ServicePort.Port candidate ∉ (ServicePort.Port <$> declared))
     ∧ (ServicePort.Name candidate ∈ (ServicePort.Name <$> declared))
     ∧ (fallbackName ∉ (ServicePort.Name <$> declared))
     ∧ keep declared candidate = Some (ServicePort.withName candidate fallbackName))
  ∨ ((ServicePort.Port candidate ∉ (ServicePort.Port <$> declared))
     ∧ (ServicePort.Name candidate ∉ (ServicePort.Name <$> declared))
     ∧ keep declared candidate = Some candidate).
Proof.
  intros fallbackName. unfold keep, filterPort.
  pose proof (extract_numbers declared (ServicePort.Port candidate)) as Hn.
  pose proof (extract_names declared (ServicePort.Name candidate)) as Hs.
  pose proof (extract_names declared fallbackName) as Hf.
  fold fallbackName.
  destruct (mapBool _ (ServicePort.Port candidate)).
  { left. split; [by apply Hn | done]. }
  assert (ServicePort.Port candidate ∉ ServicePort.Port <$> declared) as Hn'.
  { intros Hin. apply Hn in Hin. done. }
  destruct (mapBool _ (ServicePort.Name candidate)).
  - destruct (mapBool _ fallbackName).
    + right; left. repeat split; [done | by apply Hs | by apply Hf].
    + right; right; left. repeat split; [done | by apply Hs | ].
      intros Hin. apply Hf in Hin. done.
  - right; right; right. repeat split; [done | ].
    intros Hin. apply Hs in Hin. done.
Qed.

(** ** The loop over the inferred ports *)

Lemma filterInferred_from (portNumbers : gmap Z bool) (portNames : gmap string bool)
    (ports acc : list ServicePort.t) (log : list logr.Entry) :
  (foldl (λ '(resultingInferredPorts, log) inferred,
            match filterPort inferred portNumbers portNames with
            | (Some filtered, l) => (resultingInferredPorts ++ [filtered], log ++ l)
            | (None, l) => (resultingInferredPorts, log ++ l)
            end)
         (acc, log) ports).1
  = acc ++ omap (λ p, (filterPort p portNumbers portNames).1) ports.
Proof.
  revert acc log. induction ports as [|p ports IH]; intros acc log; simpl.
  - by rewrite app_nil_r.
  - destruct (filterPort p portNumbers portNames) as [[q|] l]; simpl.
    + rewrite IH. by rewrite <-app_assoc.
    + by rewrite IH.
Qed.

Lemma keep_nil (candidate : ServicePort.t) : keep [] candidate = Some candidate.
Proof. unfold keep, filterPort, mapBool. simpl. by rewrite !lookup_empty. Qed.

Lemma resolvePorts_eq (inferred declared : list ServicePort.t) :
  (resolvePorts inferred declared).1 = declared ++ omap (keep declared) inferred.
Proof.
  unfold resolvePorts. destruct declared as [|d declared].
  - simpl. induction inferred as [|p inferred IH]; [done|].
    simpl. rewrite keep_nil. simpl. by f_equal.
  - change (0 <? length (d :: declared))%nat with true. cbv iota.
    destruct (extractPortNumbersAndNames (d :: declared)) as [portNumbers portNames] eqn:He.
    pose proof (filterInferred_from portNumbers portNames inferred [] []) as Hf.
    unfold filterInferred.
    destruct (foldl _ _ inferred) as [resulting log]. simpl in *.
    unfold keep. rewrite He. simpl. by rewrite Hf.
Qed.

(** ** The base builder in terms of the resolved ports *)

Section Builders.
Variable X : deps.t.
Variable params : manifests.Params.t.

Local Abbreviation meta :=
  (v1alpha1.AmazonCloudWatchAgent.ObjectMeta (manifests.Params.OtelCol params)).
Local Abbreviation spec :=
  (v1alpha1.AmazonCloudWatchAgent.Spec (manifests.Params.OtelCol params)).
Local Abbreviation declared := (v1alpha1.AmazonCloudWatchAgentSpec.Ports spec).
Local Abbreviation inferred := (deps.constants_CloudwatchAgentPorts X).

Lemma Service_error : (Service X params).1.2 = None.
Proof.
  unfold Service. destruct (resolvePorts _ _) as [ports log].
  by destruct (length ports =? 0)%nat.
Qed.

Lemma Service_nil :
  (resolvePorts inferred declared).1 = [] → (Service X params).1 = (None, None).
Proof.
  unfold Service.
  destruct (resolvePorts _ _) as [ports log]. simpl. by intros ->.
Qed.

Lemma Service_some (svc : Service.t) :
  (Service X params).1.1 = Some svc →
  (resolvePorts inferred declared).1 ≠ []
  ∧ svc = Service.mk
            (metav1.ObjectMeta.mk
               (deps.naming_Service X (metav1.ObjectMeta.Name meta))
               (metav1.ObjectMeta.Namespace meta)
               (deps.manifestutils_Labels X meta
                  (deps.naming_Service X (metav1.ObjectMeta.Name meta))
                  (v1alpha1.AmazonCloudWatchAgentSpec.Image spec)
                  (deps.ComponentAmazonCloudWatchAgent X) [])
               (metav1.ObjectMeta.Annotations meta))
            (ServiceSpec.mk
               (resolvePorts inferred declared).1
               (deps.manifestutils_SelectorLabels X meta (deps.ComponentAmazonCloudWatchAgent X))
               ""
               (Some (if decide (v1alpha1.AmazonCloudWatchAgentSpec.Mode spec
                                 = deps.v1alpha1_ModeDaemonSet X)
                      then ServiceInternalTrafficPolicyLocal
                      else ServiceInternalTrafficPolicyCluster))).
Proof.
  unfold Service.
  destruct (resolvePorts _ _) as [ports log]. simpl.
  destruct ports as [|p ports]; simpl; [done|].
  intros [= <-]. done.
Qed.

Lemma Service_nonempty :
  (resolvePorts inferred declared).1 ≠ [] → ∃ svc, (Service X params).1 = (Some svc, None).
Proof.
  unfold Service.
  destruct (resolvePorts _ _) as [ports log]. simpl.
  destruct ports as [|p ports]; simpl; [done|]. eauto.
Qed.
End Builders.
End facts.

Import corev1 collector resolver.

(** ** The port resolver *)

Lemma Sprintf_port_inj (a b : Z) : Sprintf_port a = Sprintf_port b → a = b.
Proof.
  unfold Sprintf_port. intros Heq. apply (inj pretty). by simplify_eq/=.
Qed.

(** Every survivor stems from an inferred port, keeps its number, and
    clashes with no declared port. *)
Lemma survivor_origin (declared inferred : list ServicePort.t) (q : ServicePort.t) :
  q ∈ omap (keep declared) inferred →
  ∃ p, p ∈ inferred
       ∧ ServicePort.Port q = ServicePort.Port p
       ∧ (ServicePort.Port q ∉ (ServicePort.Port <$> declared))
       ∧ (ServicePort.Name q ∉ (ServicePort.Name <$> declared))
       ∧ (q = p
          ∨ (q = ServicePort.withName p (Sprintf_port (ServicePort.Port p))
             ∧ ServicePort.Name p ∈ (ServicePort.Name <$> declared))).
Proof.
  rewrite list_elem_of_omap. intros (p & Hp & Hkeep). exists p. split; [done|].
  destruct (keep_cases declared p)
    as [[_ Hk]|[(_ & _ & _ & Hk)|[(Hn & Hs & Hf & Hk)|(Hn & Hs & Hk)]]];
    rewrite Hk in Hkeep; simplify_eq/=; auto 10.
Qed.

Lemma survivors_sublist (declared inferred : list ServicePort.t) :
  ∃ kept, kept `sublist_of` inferred
          ∧ Forall2 survivorOf (omap (keep declared) inferred) kept.
Proof.
  induction inferred as [|p inferred (kept & Hsub & Hall)]; simpl.
  - exists []. split; constructor.
  - destruct (keep_cases declared p)
      as [[_ Hk]|[(_ & _ & _ & Hk)|[(_ & _ & _ & Hk)|(_ & _ & Hk)]]]; rewrite Hk.
    + exists kept. split; [by apply sublist_cons | done].
    + exists kept. split; [by apply sublist_cons | done].
    + exists (p :: kept). split; [by apply sublist_skip|].
      constructor; [by right | done].
    + exists (p :: kept). split; [by apply sublist_skip|].
      constructor; [by left | done].
Qed.

(** Inferred ports are compatible when no two share a number, no two share
    a name, and none is named like the fallback name of another one. *)
Lemma survivors_noDuplicates (declared inferred : list ServicePort.t) :
  NoDup (ServicePort.Port <$> inferred) →
  NoDup (ServicePort.Name <$> inferred) →
  (∀ p q, p ∈ inferred → q ∈ inferred →
          ServicePort.Port p ≠ ServicePort.Port q →
          ServicePort.Name q ≠ Sprintf_port (ServicePort.Port p)) →
  noDuplicates (omap (keep declared) inferred).
Proof.
  unfold noDuplicates.
  induction inferred as [|p l IH]; simpl; [split; constructor|].
  rewrite !NoDup_cons. intros [Hpn Hln] [Hps Hls] Hfallback.
  destruct IH as [IHn IHs]; [done | done | |].
  { intros a b Ha Hb. apply Hfallback; by right. }
  assert (∀ q', q' ∈ omap (keep declared) l →
            ∃ p', p' ∈ l ∧ ServicePort.Port p' ≠ ServicePort.Port p
                  ∧ ServicePort.Port q' = ServicePort.Port p'
                  ∧ (q' = p' ∨ q' = ServicePort.withName p' (Sprintf_port (ServicePort.Port p'))))
    as Horigin.
  { intros q' Hq'. apply survivor_origin in Hq' as (p' & Hp' & Hport & _ & _ & Hshape).
    exists p'. repeat split; [done | | done | tauto].
    intros Heq. apply Hpn. rewrite <-Heq. by apply list_elem_of_fmap_2. }
  destruct (keep_cases declared p)
    as [[_ Hk]|[(_ & _ & _ & Hk)|[(_ & _ & _ & Hk)|(_ & _ & Hk)]]]; rewrite Hk; simpl;
    [done | done | |].
  - (* kept under the fallback name *)
    rewrite !NoDup_cons. repeat split; [ | done | | done].
    + intros (q' & Hport & Hq')%list_elem_of_fmap.
      apply Horigin in Hq' as (p' & _ & Hne & Hport' & _). simpl in Hport. congruence.
    + intros (q' & Hname & Hq')%list_elem_of_fmap.
      apply Horigin in Hq' as (p' & Hp' & Hne & _ & [->| ->]); simpl in Hname.
      * eapply (Hfallback p p'); [by left | by right | done | done].
      * apply Sprintf_port_inj in Hname. congruence.
  - (* kept as it is *)
    rewrite !NoDup_cons. repeat split; [ | done | | done].
    + intros (q' & Hport & Hq')%list_elem_of_fmap.
      apply Horigin in Hq' as (p' & _ & Hne & Hport' & _). congruence.
    + intros (q' & Hname & Hq')%list_elem_of_fmap.
      apply Horigin in Hq' as (p' & Hp' & Hne & _ & [->| ->]); simpl in Hname.
      * apply Hps. rewrite Hname. by apply list_elem_of_fmap_2.
      * eapply (Hfallback p' p); [by right | by left | done | done].
Qed.

Lemma resolvePorts_noDuplicates (declared inferred : list ServicePort.t) :
  noDuplicates declared →
  noDuplicates (omap (keep declared) inferred) →
  noDuplicates (resolvePorts inferred declared).1.
Proof.
  intros [Hdn Hds] [Hn Hs]. rewrite resolvePorts_eq.
  unfold noDuplicates. rewrite !fmap_app, !NoDup_app.
  repeat split; [done | | done | done | | done].
  - intros n Hn' (q & -> & Hq)%list_elem_of_fmap.
    apply survivor_origin in Hq as (_ & _ & _ & Hfresh & _). done.
  - intros s Hs' (q & -> & Hq)%list_elem_of_fmap.
    apply survivor_origin in Hq as (_ & _ & _ & _ & Hfresh & _). done.
Qed.

(** Section 8 of the specification, collision renaming: a declared
    [metrics:8888] renames the inferred [metrics:4317] to [port-4317]. *)
Example collision_renaming :
  (resolvePorts [example.port "metrics" 4317] [example.port "metrics" 8888]).1
  = [example.port "metrics" 8888;
     ServicePort.withName (example.port "metrics" 4317) "port-4317"].
Proof. reflexivity. Qed.

(** Section 8 of the specification, double collision drop. *)
Example double_collision_drop :
  (resolvePorts [example.port "metrics" 4317]
                [example.port "metrics" 8888; example.port "port-4317" 4317]).1
  = [example.port "metrics" 8888; example.port "port-4317" 4317].
Proof. reflexivity. Qed.

(** A negative [int32] prints with its sign, as [%d] does. *)
Example Sprintf_port_negative : Sprintf_port (-2147483648) = "port--2147483648".
Proof. reflexivity. Qed.

(** C4. For an inferred port handled by [filterPort] with the membership
    maps of the declared list: a port whose number is declared is dropped;
    otherwise a port whose name is declared is kept under the fallback name
    [port-<number>], unless that name is declared too, in which case it is
    dropped, and [Service] still returns no error; otherwise the port is
    kept unchanged. *)
Theorem filterPort_decision (X : deps.t) (params : manifests.Params.t)
    (candidate : ServicePort.t) :
  let declared :=
    v1alpha1.AmazonCloudWatchAgentSpec.Ports
      (v1alpha1.AmazonCloudWatchAgent.Spec (manifests.Params.OtelCol params)) in
  let numbers := ServicePort.Port <$> declared in
  let names := ServicePort.Name <$> declared in
  let portNumbers := (extractPortNumbersAndNames declared).1 in
  let portNames := (extractPortNumbersAndNames declared).2 in
  let fallbackName := "port-" +:+ pretty (ServicePort.Port candidate) in
  (ServicePort.Port candidate ∈ numbers →
     (filterPort candidate portNumbers portNames).1 = None)
  ∧ (ServicePort.Port candidate ∉ numbers → ServicePort.Name candidate ∈ names →
     fallbackName ∉ names →
     (filterPort candidate portNumbers portNames).1
     = Some (ServicePort.withName candidate fallbackName))
  ∧ (ServicePort.Port candidate ∉ numbers → ServicePort.Name candidate ∈ names →
     fallbackName ∈ names →
     (filterPort candidate portNumbers portNames).1 = None
     ∧ (Service X params).1.2 = None)
  ∧ (ServicePort.Port candidate ∉ numbers → ServicePort.Name candidate ∉ names →
     (filterPort candidate portNumbers portNames).1 = Some candidate).
Proof.
  intros declared numbers names portNumbers portNames fallbackName.
  pose proof (keep_cases declared candidate) as Hcases.
  unfold keep in Hcases. fold portNumbers portNames in Hcases.
  change (Sprintf_port (ServicePort.Port candidate)) with fallbackName in Hcases.
  fold numbers names in Hcases. pose proof (Service_error X params) as Herr.
  cbv zeta in Hcases.
  destruct Hcases as [[Hn Hk]|[(Hn & Hs & Hf & Hk)|[(Hn & Hs & Hf & Hk)|(Hn & Hs & Hk)]]];
    repeat split; intros; try done.
Qed.

Lemma filterPort_decision_witness :
  let declared := [example.port "metrics" 8888; example.port "port-4317" 9999] in
  let portNumbers := (extractPortNumbersAndNames declared).1 in
  let portNames := (extractPortNumbersAndNames declared).2 in
  (filterPort (example.port "other" 8888) portNumbers portNames).1 = None
  ∧ (filterPort (example.port "metrics" 4318) portNumbers portNames).1
    = Some (example.port "port-4318" 4318)
  ∧ (filterPort (example.port "metrics" 4317) portNumbers portNames).1 = None
  ∧ (filterPort (example.port "otlp" 4317) portNumbers portNames).1
    = Some (example.port "otlp" 4317).
Proof.
  intros declared portNumbers portNames.
  pose (X := example.collaborators []).
  pose (params := example.instance ∅ "deployment" "" declared).
  split; [|split; [|split]].
  - pose proof (filterPort_decision X params (example.port "other" 8888)) as Hd.
    cbv zeta in Hd. destruct Hd as (Hdrop & _). apply Hdrop. compute_done.
  - pose proof (filterPort_decision X params (example.port "metrics" 4318)) as Hd.
    cbv zeta in Hd. destruct Hd as (_ & Hrename & _). apply Hrename; compute_done.
  - pose proof (filterPort_decision X params (example.port "metrics" 4317)) as Hd.
    cbv zeta in Hd. destruct Hd as (_ & _ & Hskip & _). apply Hskip; compute_done.
  - pose proof (filterPort_decision X params (example.port "otlp" 4317)) as Hd.
    cbv zeta in Hd. destruct Hd as (_ & _ & _ & Hsame). apply Hsame; compute_done.
Defined.

(** C3. The resolved port list is the declared list, verbatim and in its
    order, followed by the survivors of the inferred list: each survivor is
    an inferred port, unchanged or under its fallback name, and survivors
    keep the relative order of the inferred list.  The port list of the
    descriptor [Service] returns is this list. *)
Theorem resolver_priority (X : deps.t) (params : manifests.Params.t) :
  let declared :=
    v1alpha1.AmazonCloudWatchAgentSpec.Ports
      (v1alpha1.AmazonCloudWatchAgent.Spec (manifests.Params.OtelCol params)) in
  let inferred := deps.constants_CloudwatchAgentPorts X in
  ∃ surviving kept,
    (resolvePorts inferred declared).1 = declared ++ surviving
    ∧ surviving = omap (keep declared) inferred
    ∧ kept `sublist_of` inferred
    ∧ Forall2 survivorOf surviving kept
    ∧ ∀ svc, (Service X params).1.1 = Some svc →
             ServiceSpec.Ports (Service.Spec svc) = declared ++ surviving.
Proof.
  intros declared inferred.
  destruct (survivors_sublist declared inferred) as (kept & Hsub & Hall).
  exists (omap (keep declared) inferred), kept.
  split; [apply resolvePorts_eq|]. repeat split; [done | done |].
  intros svc Hsvc. apply Service_some in Hsvc as [_ ->]. simpl. apply resolvePorts_eq.
Qed.

(** C7. When the resolved port list is empty, [Service] returns [nil, nil]. *)
Theorem Service_without_ports (X : deps.t) (params : manifests.Params.t) :
  (resolvePorts (deps.constants_CloudwatchAgentPorts X)
     (v1alpha1.AmazonCloudWatchAgentSpec.Ports
        (v1alpha1.AmazonCloudWatchAgent.Spec (manifests.Params.OtelCol params)))).1 = [] →
  (Service X params).1 = (None, None).
Proof. apply Service_nil. Qed.

Lemma Service_without_ports_witness :
  (Service (example.collaborators []) (example.instance ∅ "deployment" "" [])).1
  = (None, None).
Proof.
  apply (Service_without_ports (example.collaborators [])
           (example.instance ∅ "deployment" "" [])).
  reflexivity.
Defined.

(** C9. A descriptor returned by [Service] has internal traffic policy
    [Local] exactly when the mode is [ModeDaemonSet], and [Cluster] for
    every other mode. *)
Theorem Service_trafficPolicy (X : deps.t) (params : manifests.Params.t)
    (svc : Service.t) :
  let mode :=
    v1alpha1.AmazonCloudWatchAgentSpec.Mode
      (v1alpha1.AmazonCloudWatchAgent.Spec (manifests.Params.OtelCol params)) in
  (Service X params).1.1 = Some svc →
  (ServiceSpec.InternalTrafficPolicy (Service.Spec svc) = Some "Local"
   ↔ mode = deps.v1alpha1_ModeDaemonSet X)
  ∧ (ServiceSpec.InternalTrafficPolicy (Service.Spec svc) = Some "Cluster"
     ↔ mode ≠ deps.v1alpha1_ModeDaemonSet X).
Proof.
  intros mode Hsvc. apply Service_some in Hsvc as [_ ->]. simpl. fold mode.
  destruct (decide (mode = deps.v1alpha1_ModeDaemonSet X)) as [Heq|Hne].
  - split; split; done.
  - split; split; done.
Qed.

Lemma Service_trafficPolicy_witness :
  let X := example.collaborators [example.port "metrics" 4317] in
  ∃ daemon deploy,
    (Service X (example.instance ∅ "daemonset" "" [])).1.1 = Some daemon
    ∧ ServiceSpec.InternalTrafficPolicy (Service.Spec daemon) = Some "Local"
    ∧ (Service X (example.instance ∅ "deployment" "" [])).1.1 = Some deploy
    ∧ ServiceSpec.InternalTrafficPolicy (Service.Spec deploy) = Some "Cluster".
Proof.
  intros X. eexists _, _.
  split; [reflexivity|]. split.
  { apply (Service_trafficPolicy X (example.instance ∅ "daemonset" "" []));
      reflexivity. }
  split; [reflexivity|].
  apply (Service_trafficPolicy X (example.instance ∅ "deployment" "" []));
    [reflexivity | compute_done].
Defined.

(** C1, as stated, fails on three kinds of input: a declared list that
    repeats a number (it is copied verbatim), an inferred list that repeats
    a number or a name (its entries are only compared with declared ones),
    and an inferred port renamed to a fallback name that another inferred
    port already carries. *)
Lemma resolver_duplicates_counterexample :
  (∃ svc,
     (Service (example.collaborators [])
        (example.instance ∅ "deployment" ""
           [example.port "metrics" 8888; example.port "metrics" 8888])).1.1 = Some svc
     ∧ ¬ noDuplicates (ServiceSpec.Ports (Service.Spec svc)))
  ∧ (∃ svc,
       (Service (example.collaborators [example.port "otlp" 4317; example.port "otlp" 4317])
          (example.instance ∅ "deployment" "" [])).1.1 = Some svc
       ∧ ¬ noDuplicates (ServiceSpec.Ports (Service.Spec svc)))
  ∧ (∃ svc,
       (Service
          (example.collaborators [example.port "metrics" 4317; example.port "port-4317" 4318])
          (example.instance ∅ "deployment" "" [example.port "metrics" 8888])).1.1 = Some svc
       ∧ ServiceSpec.Ports (Service.Spec svc)
         = [example.port "metrics" 8888; example.port "port-4317" 4317;
            example.port "port-4317" 4318]
       ∧ ¬ noDuplicates (ServiceSpec.Ports (Service.Spec svc))).
Proof.
  split; [|split].
  - eexists. split; [reflexivity|]. intros [Hn _]. revert Hn. compute_done.
  - eexists. split; [reflexivity|]. intros [Hn _]. revert Hn. compute_done.
  - eexists. split; [reflexivity|]. split; [reflexivity|].
    intros [_ Hs]. revert Hs. compute_done.
Qed.

(** C1, amended. When the declared ports have no duplicate number or name,
    the inferred ports have none either, and no inferred port is named like
    the fallback name [port-<number>] of another inferred port, the port
    list of the descriptor [Service] returns has no two entries sharing a
    number and no two sharing a name. *)
Theorem resolver_no_duplicates (X : deps.t) (params : manifests.Params.t)
    (svc : Service.t) :
  let declared :=
    v1alpha1.AmazonCloudWatchAgentSpec.Ports
      (v1alpha1.AmazonCloudWatchAgent.Spec (manifests.Params.OtelCol params)) in
  let inferred := deps.constants_CloudwatchAgentPorts X in
  noDuplicates declared →
  noDuplicates inferred →
  (∀ p q, p ∈ inferred → q ∈ inferred →
          ServicePort.Port p ≠ ServicePort.Port q →
          ServicePort.Name q ≠ "port-" +:+ pretty (ServicePort.Port p)) →
  (Service X params).1.1 = Some svc →
  NoDup (ServicePort.Port <$> ServiceSpec.Ports (Service.Spec svc))
  ∧ NoDup (ServicePort.Name <$> ServiceSpec.Ports (Service.Spec svc)).
Proof.
  intros declared inferred Hdeclared [Hin His] Hfallback Hsvc.
  apply Service_some in Hsvc as [_ ->]. simpl.
  apply resolvePorts_noDuplicates; [done|].
  by apply survivors_noDuplicates.
Qed.

Lemma resolver_no_duplicates_witness :
  let X := example.collaborators [example.port "metrics" 4317; example.port "otlp" 4318] in
  let params := example.instance ∅ "deployment" "" [example.port "metrics" 8888] in
  ∃ svc,
    (Service X params).1.1 = Some svc
    ∧ ServiceSpec.Ports (Service.Spec svc)
      = [example.port "metrics" 8888; example.port "port-4317" 4317;
         example.port "otlp" 4318]
    ∧ NoDup (ServicePort.Port <$> ServiceSpec.Ports (Service.Spec svc))
    ∧ NoDup (ServicePort.Name <$> ServiceSpec.Ports (Service.Spec svc)).
Proof.
  intros X params. eexists. split; [reflexivity|]. split; [reflexivity|].
  apply (resolver_no_duplicates X params).
  - split; compute_done.
  - split; compute_done.
  - intros p q Hp Hq.
    apply list_elem_of_In in Hp, Hq. simpl in Hp, Hq.
    destruct Hp as [<-|[<-|[]]], Hq as [<-|[<-|[]]]; compute_done.
  - reflexivity.
Defined.

(** ** The headless variant *)

Import contract.

Lemma headlessAnnotations_union (hName : string) (hAnnotations : gmap string string) :
  headlessAnnotations hName hAnnotations
  = hAnnotations ∪ {[ servingCertKey := Sprintf_tls hName ]}.
Proof.
  unfold headlessAnnotations.
  apply (map_fold_weak_ind
           (λ r m, r = m ∪ {[ servingCertKey := Sprintf_tls hName ]})).
  - by rewrite (left_id_L ∅ (∪)).
  - intros k v m r _ ->. by rewrite insert_union_l.
Qed.

Lemma HeadlessService_some (X : deps.t) (params : manifests.Params.t) (base : Service.t) :
  (Service X params).1 = (Some base, None) →
  (HeadlessService X params).1
  = (Some (Service.mk
             (metav1.ObjectMeta.mk
                (deps.naming_HeadlessService X
                   (metav1.ObjectMeta.Name
                      (v1alpha1.AmazonCloudWatchAgent.ObjectMeta (manifests.Params.OtelCol params))))
                (metav1.ObjectMeta.Namespace (Service.ObjectMeta base))
                (<[headlessLabel := headlessExists]>
                   (metav1.ObjectMeta.Labels (Service.ObjectMeta base)))
                (headlessAnnotations
                   (deps.naming_HeadlessService X
                      (metav1.ObjectMeta.Name
                         (v1alpha1.AmazonCloudWatchAgent.ObjectMeta
                            (manifests.Params.OtelCol params))))
                   (metav1.ObjectMeta.Annotations (Service.ObjectMeta base))))
             (ServiceSpec.mk
                (ServiceSpec.Ports (Service.Spec base))
                (ServiceSpec.Selector (Service.Spec base))
                "None"
                (ServiceSpec.InternalTrafficPolicy (Service.Spec base)))),
     None).
Proof.
  unfold HeadlessService.
  destruct (Service X params) as [[[h|] [e|]] log]; simpl; intros [= <-]. done.
Qed.

Lemma HeadlessService_propagates (X : deps.t) (params : manifests.Params.t) :
  (Service X params).1.1 = None ∨ (Service X params).1.2 ≠ None →
  HeadlessService X params = Service X params.
Proof.
  unfold HeadlessService.
  destruct (Service X params) as [[[h|] [e|]] log]; simpl; intros [?|?]; done.
Qed.

(** The headless descriptor of an instance with a declared port and an
    annotation [team = obs]. *)
Example HeadlessService_run :
  ∃ h,
    (HeadlessService (example.collaborators [])
       (example.instance {[ "team" := "obs" ]} "deployment" ""
          [example.port "metrics" 8888])).1 = (Some h, None)
    ∧ metav1.ObjectMeta.Name (Service.ObjectMeta h) = "agent-headless"
    ∧ ServiceSpec.ClusterIP (Service.Spec h) = "None"
    ∧ metav1.ObjectMeta.Annotations (Service.ObjectMeta h)
      = {[ "team" := "obs"; servingCertKey := "agent-headless-tls" ]}.
Proof. eexists. split; [reflexivity|]. repeat split. Qed.

(** C8, as stated, fails when the instance's annotations already bind the
    serving-certificate key: the headless descriptor then carries the
    caller's value, and the synthesized [<name>-tls] entry is not in it. *)
Lemma HeadlessService_annotations_counterexample :
  let X := example.collaborators [] in
  let params :=
    example.instance {[ servingCertKey := "mine" ]} "deployment" ""
      [example.port "metrics" 8888] in
  ∃ base h,
    (Service X params).1 = (Some base, None)
    ∧ (HeadlessService X params).1 = (Some h, None)
    ∧ metav1.ObjectMeta.Name (Service.ObjectMeta h) = "agent-headless"
    ∧ metav1.ObjectMeta.Annotations (Service.ObjectMeta h) !! servingCertKey = Some "mine"
    ∧ metav1.ObjectMeta.Annotations (Service.ObjectMeta h) !! servingCertKey
      ≠ Some (metav1.ObjectMeta.Name (Service.ObjectMeta h) +:+ "-tls").
Proof.
  intros X params. eexists _, _.
  split; [reflexivity|]. split; [reflexivity|]. split; [reflexivity|].
  split; [reflexivity|]. compute_done.
Qed.

(** C8, amended. When [Service] returns a descriptor with name N and
    annotations A, [HeadlessService] returns a descriptor named by
    [naming.HeadlessService] for the same instance name from which
    [naming.Service] computes N, with [ClusterIP] [None], the label
    [operator.opentelemetry.io/collector-headless-service = Exists], every
    annotation of A, and the serving-certificate annotation [<name>-tls] of
    its own name provided A does not already bind that key.  When [Service]
    returns [nil] or an error, [HeadlessService] returns the same result. *)
Theorem HeadlessService_derivation (X : deps.t) (params : manifests.Params.t) :
  let instanceName :=
    metav1.ObjectMeta.Name
      (v1alpha1.AmazonCloudWatchAgent.ObjectMeta (manifests.Params.OtelCol params)) in
  (∀ base,
     (Service X params).1 = (Some base, None) →
     ∃ h,
       (HeadlessService X params).1 = (Some h, None)
       ∧ metav1.ObjectMeta.Name (Service.ObjectMeta base) = deps.naming_Service X instanceName
       ∧ metav1.ObjectMeta.Name (Service.ObjectMeta h)
         = deps.naming_HeadlessService X instanceName
       ∧ ServiceSpec.ClusterIP (Service.Spec h) = "None"
       ∧ metav1.ObjectMeta.Labels (Service.ObjectMeta h)
           !! "operator.opentelemetry.io/collector-headless-service" = Some "Exists"
       ∧ metav1.ObjectMeta.Annotations (Service.ObjectMeta base)
         ⊆ metav1.ObjectMeta.Annotations (Service.ObjectMeta h)
       ∧ (metav1.ObjectMeta.Annotations (Service.ObjectMeta base)
            !! "service.beta.openshift.io/serving-cert-secret-name" = None →
          metav1.ObjectMeta.Annotations (Service.ObjectMeta h)
            !! "service.beta.openshift.io/serving-cert-secret-name"
          = Some (metav1.ObjectMeta.Name (Service.ObjectMeta h) +:+ "-tls")))
  ∧ ((Service X params).1.1 = None ∨ (Service X params).1.2 ≠ None →
     HeadlessService X params = Service X params).
Proof.
  intros instanceName. split; [|apply HeadlessService_propagates].
  intros base Hbase. eexists. split; [by apply HeadlessService_some|]. simpl.
  assert ((Service X params).1.1 = Some base) as Hsome by (by rewrite Hbase).
  apply Service_some in Hsome as [_ Hshape].
  split; [by rewrite Hshape|]. split; [done|]. split; [done|].
  split; [apply lookup_insert_eq|].
  rewrite headlessAnnotations_union. split; [apply map_union_subseteq_l|].
  intros Hfree. rewrite lookup_union_r by done. apply lookup_singleton_eq.
Qed.

Lemma HeadlessService_derivation_witness :
  let X := example.collaborators [] in
  (∃ h,
     (HeadlessService X
        (example.instance {[ "team" := "obs" ]} "deployment" ""
           [example.port "metrics" 8888])).1 = (Some h, None)
     ∧ metav1.ObjectMeta.Annotations (Service.ObjectMeta h)
         !! "service.beta.openshift.io/serving-cert-secret-name"
       = Some (metav1.ObjectMeta.Name (Service.ObjectMeta h) +:+ "-tls"))
  ∧ HeadlessService X (example.instance ∅ "deployment" "" [])
    = Service X (example.instance ∅ "deployment" "" []).
Proof.
  intros X. split.
  - pose proof (HeadlessService_derivation X
                  (example.instance {[ "team" := "obs" ]} "deployment" ""
                     [example.port "metrics" 8888])) as Hd.
    cbv zeta in Hd. destruct Hd as [Hd _].
    edestruct Hd as (h & Hh & _ & _ & _ & _ & _ & Htls); [reflexivity|].
    exists h. split; [exact Hh|]. apply Htls.
    injection Hh as <-. reflexivity.
  - pose proof (HeadlessService_derivation X (example.instance ∅ "deployment" "" [])) as Hd.
    cbv zeta in Hd. destruct Hd as [_ Hd]. apply Hd. left. reflexivity.
Defined.

(** C10, as stated, fails when the caller's value for the
    serving-certificate key is the synthesized value itself: the key is
    bound in the instance's annotations, and the synthesized [<name>-tls]
    value is in the result, not absent from it. *)
Lemma HeadlessService_caller_value_counterexample :
  let X := example.collaborators [] in
  let params :=
    example.instance {[ servingCertKey := "agent-headless-tls" ]} "deployment" ""
      [example.port "metrics" 8888] in
  ∃ h,
    (HeadlessService X params).1 = (Some h, None)
    ∧ metav1.ObjectMeta.Annotations
        (v1alpha1.AmazonCloudWatchAgent.ObjectMeta (manifests.Params.OtelCol params))
        !! "service.beta.openshift.io/serving-cert-secret-name" = Some "agent-headless-tls"
    ∧ metav1.ObjectMeta.Name (Service.ObjectMeta h) = "agent-headless"
    ∧ metav1.ObjectMeta.Annotations (Service.ObjectMeta h)
        !! "service.beta.openshift.io/serving-cert-secret-name"
      = Some (metav1.ObjectMeta.Name (Service.ObjectMeta h) +:+ "-tls").
Proof.
  intros X params. eexists.
  split; [reflexivity|]. split; [reflexivity|]. split; reflexivity.
Qed.

(** C10, amended. When the instance's annotations bind the
    serving-certificate key to a value, the headless descriptor carries that
    value for the key: its annotations are the instance's annotations laid
    over the synthesized entry, so the synthesized value [<name>-tls] is not
    in the result unless the caller's value is that very value. *)
Theorem HeadlessService_keeps_caller_value (X : deps.t) (params : manifests.Params.t)
    (h : Service.t) (v : string) :
  let annotations :=
    metav1.ObjectMeta.Annotations
      (v1alpha1.AmazonCloudWatchAgent.ObjectMeta (manifests.Params.OtelCol params)) in
  let synthesized := metav1.ObjectMeta.Name (Service.ObjectMeta h) +:+ "-tls" in
  annotations !! "service.beta.openshift.io/serving-cert-secret-name" = Some v →
  (HeadlessService X params).1.1 = Some h →
  metav1.ObjectMeta.Annotations (Service.ObjectMeta h)
  = annotations ∪ {[ "service.beta.openshift.io/serving-cert-secret-name" := synthesized ]}
  ∧ metav1.ObjectMeta.Annotations (Service.ObjectMeta h)
      !! "service.beta.openshift.io/serving-cert-secret-name" = Some v
  ∧ (v ≠ synthesized →
     metav1.ObjectMeta.Annotations (Service.ObjectMeta h)
       !! "service.beta.openshift.io/serving-cert-secret-name" ≠ Some synthesized).
Proof.
  intros annotations synthesized Hbound Hh.
  assert (∃ b, (Service X params).1 = (Some b, None)) as [b Hb].
  { pose proof (Service_error X params) as Herr. unfold HeadlessService in Hh.
    destruct (Service X params) as [[[b|] [e|]] log]; simpl in *; try done. eauto. }
  pose proof (HeadlessService_some X params b Hb) as Hshape.
  assert ((Service X params).1.1 = Some b) as Hsome by (by rewrite Hb).
  apply Service_some in Hsome as [_ Hbase].
  rewrite Hshape in Hh. simpl in Hh. injection Hh as <-.
  subst synthesized. simpl. rewrite headlessAnnotations_union.
  rewrite Hbase. simpl. fold annotations.
  split; [done|].
  split; [by apply lookup_union_Some_l|].
  intros Hne. erewrite lookup_union_Some_l by done. congruence.
Qed.

Lemma HeadlessService_keeps_caller_value_witness :
  let X := example.collaborators [] in
  let params :=
    example.instance {[ servingCertKey := "mine" ]} "deployment" ""
      [example.port "metrics" 8888] in
  ∃ h,
    (HeadlessService X params).1.1 = Some h
    ∧ metav1.ObjectMeta.Annotations (Service.ObjectMeta h)
        !! "service.beta.openshift.io/serving-cert-secret-name" = Some "mine"
    ∧ metav1.ObjectMeta.Annotations (Service.ObjectMeta h)
        !! "service.beta.openshift.io/serving-cert-secret-name"
      ≠ Some (metav1.ObjectMeta.Name (Service.ObjectMeta h) +:+ "-tls").
Proof.
  intros X params.
  assert (∃ h, (HeadlessService X params).1.1 = Some h) as [h Hh]
    by (eexists; reflexivity).
  exists h. split; [exact Hh|].
  pose proof (HeadlessService_keeps_caller_value X params h "mine") as Hk.
  cbv zeta in Hk. destruct Hk as (_ & Hvalue & Habsent); [reflexivity | exact Hh |].
  split; [exact Hvalue|]. apply Habsent.
  vm_compute in Hh. injection Hh as <-. compute_done.
Defined.

(** ** The monitoring variant *)

(** C6. [MonitoringService] returns the error of [adapters.ConfigFromString]
    when the configuration text does not parse, and the error of
    [adapters.ConfigToMetricsPort] when no metrics port is derived;
    otherwise it returns a descriptor whose only port is named
    [monitoring] and carries the metrics port, with an empty [ClusterIP]
    and the selector labels of the instance. *)
Theorem MonitoringService_result (X : deps.t) (params : manifests.Params.t) :
  let meta := v1alpha1.AmazonCloudWatchAgent.ObjectMeta (manifests.Params.OtelCol params) in
  let config :=
    v1alpha1.AmazonCloudWatchAgentSpec.Config
      (v1alpha1.AmazonCloudWatchAgent.Spec (manifests.Params.OtelCol params)) in
  (∀ err,
     deps.adapters_ConfigFromString X config = inl err →
     (MonitoringService X params).1 = (None, Some err))
  ∧ (∀ c err,
       deps.adapters_ConfigFromString X config = inr c →
       deps.adapters_ConfigToMetricsPort X c = inl err →
       (MonitoringService X params).1 = (None, Some err))
  ∧ (∀ c metricsPort,
       deps.adapters_ConfigFromString X config = inr c →
       deps.adapters_ConfigToMetricsPort X c = inr metricsPort →
       ∃ svc,
         (MonitoringService X params).1 = (Some svc, None)
         ∧ ServiceSpec.Ports (Service.Spec svc)
           = [ServicePort.mk "monitoring" "" None metricsPort (intstr.FromInt 0) 0]
         ∧ ServiceSpec.ClusterIP (Service.Spec svc) = ""
         ∧ ServiceSpec.Selector (Service.Spec svc)
           = deps.manifestutils_SelectorLabels X meta (deps.ComponentAmazonCloudWatchAgent X)).
Proof.
  intros meta config. unfold MonitoringService. fold meta config.
  split; [|split].
  - intros err ->. done.
  - intros c err -> ->. done.
  - intros c metricsPort -> ->. eexists. repeat split.
Qed.

Lemma MonitoringService_result_witness :
  let X := example.collaborators [] in
  (MonitoringService X (example.instance ∅ "deployment" "" [])).1
  = (None, Some "empty configuration")
  ∧ (MonitoringService X (example.instance ∅ "deployment" "receivers: {}" [])).1
    = (None, Some "no metrics port")
  ∧ ∃ svc,
      (MonitoringService X (example.instance ∅ "deployment" "8888" [])).1 = (Some svc, None)
      ∧ ServiceSpec.Ports (Service.Spec svc)
        = [ServicePort.mk "monitoring" "" None 8888 (intstr.FromInt 0) 0].
Proof.
  intros X. split; [|split].
  - pose proof (MonitoringService_result X (example.instance ∅ "deployment" "" [])) as Hm.
    cbv zeta in Hm. destruct Hm as (Hparse & _). apply Hparse. reflexivity.
  - pose proof (MonitoringService_result X
                  (example.instance ∅ "deployment" "receivers: {}" [])) as Hm.
    cbv zeta in Hm. destruct Hm as (_ & Hport & _).
    apply (Hport "receivers: {}"); reflexivity.
  - pose proof (MonitoringService_result X (example.instance ∅ "deployment" "8888" [])) as Hm.
    cbv zeta in Hm. destruct Hm as (_ & _ & Hok).
    destruct (Hok "8888" 8888) as (svc & Hsvc & Hports & _); [reflexivity | reflexivity |].
    exists svc. split; [exact Hsvc | exact Hports].
Defined.

(** ** The default instrumentation *)

Import instrumentation.

(** C5. Without [AUTO_INSTRUMENTATION_JAVA] the builder returns no
    descriptor and an error about the java image; with it but without
    [AUTO_INSTRUMENTATION_PYTHON], no descriptor and an error about the
    python image; with both it returns a descriptor and no error.  So an
    error always comes without a descriptor and names a missing image. *)
Theorem getDefaultInstrumentation_gating (environ : gmap string string) :
  (environ !! "AUTO_INSTRUMENTATION_JAVA" = None →
   getDefaultInstrumentation environ
   = (None, Some "unable to determine java instrumentation image"))
  ∧ (is_Some (environ !! "AUTO_INSTRUMENTATION_JAVA") →
     environ !! "AUTO_INSTRUMENTATION_PYTHON" = None →
     getDefaultInstrumentation environ
     = (None, Some "unable to determine python instrumentation image"))
  ∧ (is_Some (environ !! "AUTO_INSTRUMENTATION_JAVA") →
     is_Some (environ !! "AUTO_INSTRUMENTATION_PYTHON") →
     ∃ d, getDefaultInstrumentation environ = (Some d, None))
  ∧ (∀ err,
       (getDefaultInstrumentation environ).2 = Some err →
       (getDefaultInstrumentation environ).1 = None
       ∧ ((err = "unable to determine java instrumentation image"
           ∧ environ !! "AUTO_INSTRUMENTATION_JAVA" = None)
          ∨ (err = "unable to determine python instrumentation image"
             ∧ environ !! "AUTO_INSTRUMENTATION_PYTHON" = None))).
Proof.
  unfold getDefaultInstrumentation, LookupEnv, errors.New.
  destruct (environ !! "AUTO_INSTRUMENTATION_JAVA") as [java|] eqn:Hjava;
    destruct (environ !! "AUTO_INSTRUMENTATION_PYTHON") as [python|] eqn:Hpython;
    (split; [|split; [|split]]); simpl;
    try (by intros); try (by intros [? ?]); try (by intros ? [? ?]); eauto.
  - intros err [= <-]. auto.
  - intros err [= <-]. auto.
  - intros err [= <-]. auto.
Qed.

Lemma getDefaultInstrumentation_gating_witness :
  getDefaultInstrumentation {[ "AUTO_INSTRUMENTATION_PYTHON" := "python:1" ]}
  = (None, Some "unable to determine java instrumentation image")
  ∧ getDefaultInstrumentation {[ "AUTO_INSTRUMENTATION_JAVA" := "java:1" ]}
    = (None, Some "unable to determine python instrumentation image")
  ∧ ∃ d, getDefaultInstrumentation
           {[ "AUTO_INSTRUMENTATION_JAVA" := "java:1";
              "AUTO_INSTRUMENTATION_PYTHON" := "python:1" ]} = (Some d, None).
Proof.
  split; [|split].
  - apply (getDefaultInstrumentation_gating
             {[ "AUTO_INSTRUMENTATION_PYTHON" := "python:1" ]}). reflexivity.
  - apply (getDefaultInstrumentation_gating
             {[ "AUTO_INSTRUMENTATION_JAVA" := "java:1" ]}); [by eexists | reflexivity].
  - apply (getDefaultInstrumentation_gating
             {[ "AUTO_INSTRUMENTATION_JAVA" := "java:1";
                "AUTO_INSTRUMENTATION_PYTHON" := "python:1" ]}); by eexists.
Defined.

(** C2, as stated, fails: with both images present the python block has no
    sampler-selection entry ([OTEL_TRACES_SAMPLER]), so it is not the seven
    common entries followed by the two distribution entries. *)
Lemma getDefaultInstrumentation_env_counterexample :
  ∃ d,
    getDefaultInstrumentation
      {[ "AUTO_INSTRUMENTATION_JAVA" := "java:1";
         "AUTO_INSTRUMENTATION_PYTHON" := "python:1" ]} = (Some d, None)
    ∧ ¬ uniformBlocks d
    ∧ length (pythonEnv d) = 8%nat
    ∧ "OTEL_TRACES_SAMPLER" ∉ (EnvVar.Name <$> pythonEnv d).
Proof.
  eexists. split; [reflexivity|]. split; [|split].
  - intros [[_ Hpy]|[Hjava _]]; [discriminate Hpy | discriminate Hjava].
  - reflexivity.
  - compute_done.
Qed.

(** C2, amended. With both images present the builder returns a descriptor
    whose java block carries its image and, in order, exactly the seven
    entries: sampler enablement, sampler argument endpoint, sampler
    selection, exporter protocol, trace-exporter endpoint, secondary
    collector endpoint, metrics-exporter disablement; and whose python block
    carries its image and, in order, exactly those entries without the
    sampler selection, followed by the distribution and configurator
    entries. *)
Theorem getDefaultInstrumentation_env (environ : gmap string string)
    (java python : string) :
  environ !! "AUTO_INSTRUMENTATION_JAVA" = Some java →
  environ !! "AUTO_INSTRUMENTATION_PYTHON" = Some python →
  ∃ d,
    getDefaultInstrumentation environ = (Some d, None)
    ∧ v1alpha1.Java.Image
        (v1alpha1.InstrumentationSpec.Java (v1alpha1.Instrumentation.Spec d)) = java
    ∧ v1alpha1.Python.Image
        (v1alpha1.InstrumentationSpec.Python (v1alpha1.Instrumentation.Spec d)) = python
    ∧ javaEnv d
      = [EnvVar.mk "OTEL_SMP_ENABLED" "true";
         EnvVar.mk "OTEL_TRACES_SAMPLER_ARG"
           "endpoint=http://cloudwatch-agent.amazon-cloudwatch:2000";
         EnvVar.mk "OTEL_TRACES_SAMPLER" "xray";
         EnvVar.mk "OTEL_EXPORTER_OTLP_PROTOCOL" "http/protobuf";
         EnvVar.mk "OTEL_EXPORTER_OTLP_TRACES_ENDPOINT"
           "http://cloudwatch-agent.amazon-cloudwatch:4316/v1/traces";
         EnvVar.mk "OTEL_AWS_SMP_EXPORTER_ENDPOINT"
           "http://cloudwatch-agent.amazon-cloudwatch:4315";
         EnvVar.mk "OTEL_METRICS_EXPORTER" "none"]
    ∧ pythonEnv d
      = [EnvVar.mk "OTEL_SMP_ENABLED" "true";
         EnvVar.mk "OTEL_TRACES_SAMPLER_ARG"
           "endpoint=http://cloudwatch-agent.amazon-cloudwatch:2000";
         EnvVar.mk "OTEL_EXPORTER_OTLP_PROTOCOL" "http/protobuf";
         EnvVar.mk "OTEL_EXPORTER_OTLP_TRACES_ENDPOINT"
           "http://cloudwatch-agent.amazon-cloudwatch:4316/v1/traces";
         EnvVar.mk "OTEL_AWS_SMP_EXPORTER_ENDPOINT"
           "http://cloudwatch-agent.amazon-cloudwatch:4315";
         EnvVar.mk "OTEL_METRICS_EXPORTER" "none";
         EnvVar.mk "OTEL_PYTHON_DISTRO" "aws_distro";
         EnvVar.mk "OTEL_PYTHON_CONFIGURATOR" "aws_configurator"]
    ∧ javaEnv d = commonEnv
    ∧ pythonEnv d = take 2 commonEnv ++ drop 3 commonEnv ++ distroEnv.
Proof.
  intros Hjava Hpython. unfold getDefaultInstrumentation, LookupEnv.
  rewrite Hjava, Hpython. eexists. split; [reflexivity|]. repeat split.
Qed.

Lemma getDefaultInstrumentation_env_witness :
  ∃ d,
    getDefaultInstrumentation
      {[ "AUTO_INSTRUMENTATION_JAVA" := "java:1";
         "AUTO_INSTRUMENTATION_PYTHON" := "python:1" ]} = (Some d, None)
    ∧ javaEnv d = commonEnv
    ∧ pythonEnv d = take 2 commonEnv ++ drop 3 commonEnv ++ distroEnv.
Proof.
  destruct (getDefaultInstrumentation_env
              {[ "AUTO_INSTRUMENTATION_JAVA" := "java:1";
                 "AUTO_INSTRUMENTATION_PYTHON" := "python:1" ]} "java:1" "python:1")
    as (d & Hd & _ & _ & _ & _ & Hjava & Hpython); [reflexivity | reflexivity |].
  exists d. split; [exact Hd|]. split; [exact Hjava | exact Hpython].
Defined.

(** * Further properties of the builders *)

(** ** Helper lemmas *)

Lemma extract_lookup_from (ports : list ServicePort.t) (numbers : gmap Z bool)
    (names : gmap string bool) (n : Z) (s : string) :
  let r := foldl (λ '(numbers, names) port,
                    (<[ServicePort.Port port := true]> numbers,
                     <[ServicePort.Name port := true]> names))
                 (numbers, names) ports in
  r.1 !! n = (if decide (n ∈ (ServicePort.Port <$> ports)) then Some true else numbers !! n)
  ∧ r.2 !! s = (if decide (s ∈ (ServicePort.Name <$> ports)) then Some true else names !! s).
Proof.
  revert numbers names. induction ports as [|p ports IH]; intros numbers names; simpl.
  - done.
  - destruct (IH (<[ServicePort.Port p := true]> numbers)
                 (<[ServicePort.Name p := true]> names)) as [IHn IHs].
    simpl in IHn, IHs. rewrite IHn, IHs. split.
    + destruct (decide (n ∈ (ServicePort.Port <$> ports))) as [Hin|Hout].
      * rewrite decide_True; [done | by right].
      * destruct (decide (ServicePort.Port p = n)) as [<-|Hne].
        -- rewrite lookup_insert_eq. rewrite decide_True; [done | by left].
        -- rewrite lookup_insert_ne by done. rewrite decide_False; [done|].
           intros [?|?]%elem_of_cons; [congruence | done].
    + destruct (decide (s ∈ (ServicePort.Name <$> ports))) as [Hin|Hout].
      * rewrite decide_True; [done | by right].
      * destruct (decide (ServicePort.Name p = s)) as [<-|Hne].
        -- rewrite lookup_insert_eq. rewrite decide_True; [done | by left].
        -- rewrite lookup_insert_ne by done. rewrite decide_False; [done|].
           intros [?|?]%elem_of_cons; [congruence | done].
Qed.

Lemma filterPort_shape (candidate : ServicePort.t) (portNumbers : gmap Z bool)
    (portNames : gmap string bool) :
  let fallbackName := Sprintf_port (ServicePort.Port candidate) in
  (mapBool portNumbers (ServicePort.Port candidate) = true
   ∧ filterPort candidate portNumbers portNames = (None, []))
  ∨ (mapBool portNumbers (ServicePort.Port candidate) = false
     ∧ mapBool portNames (ServicePort.Name candidate) = true
     ∧ mapBool portNames fallbackName = true
     ∧ filterPort candidate portNumbers portNames
       = (None,
          [logr.Info 2 "a port name specified in the CR clashes with an inferred port name, and the fallback port name clashes with another port name! Skipping this port."
             [("inferred-port-name", ServicePort.Name candidate);
              ("fallback-port-name", fallbackName)]]))
  ∨ (mapBool portNumbers (ServicePort.Port candidate) = false
     ∧ mapBool portNames (ServicePort.Name candidate) = true
     ∧ mapBool portNames fallbackName = false
     ∧ filterPort candidate portNumbers portNames
       = (Some (ServicePort.withName candidate fallbackName), []))
  ∨ (mapBool portNumbers (ServicePort.Port candidate) = false
     ∧ mapBool portNames (ServicePort.Name candidate) = false
     ∧ filterPort candidate portNumbers portNames = (Some candidate, [])).
Proof.
  intros fallbackName. unfold filterPort. fold fallbackName.
  destruct (mapBool portNumbers _); [by left|].
  destruct (mapBool portNames (ServicePort.Name candidate)).
  - destruct (mapBool portNames fallbackName); [right; left | right; right; left]; done.
  - right; right; right. done.
Qed.

Lemma filterInferred_log_from (portNumbers : gmap Z bool) (portNames : gmap string bool)
    (ports acc : list ServicePort.t) (log : list logr.Entry) :
  (foldl (λ '(resultingInferredPorts, log) inferred,
            match filterPort inferred portNumbers portNames with
            | (Some filtered, l) => (resultingInferredPorts ++ [filtered], log ++ l)
            | (None, l) => (resultingInferredPorts, log ++ l)
            end)
         (acc, log) ports).2
  = log ++ concat ((λ p, (filterPort p portNumbers portNames).2) <$> ports).
Proof.
  revert acc log. induction ports as [|p ports IH]; intros acc log; simpl.
  - by rewrite app_nil_r.
  - destruct (filterPort p portNumbers portNames) as [[q|] l]; simpl;
      rewrite IH; by rewrite <-app_assoc.
Qed.

Lemma resolvePorts_log (inferred declared : list ServicePort.t) :
  (resolvePorts inferred declared).2
  = if decide (declared = []) then []
    else concat ((λ p, (filterPort p (extractPortNumbersAndNames declared).1
                                     (extractPortNumbersAndNames declared).2).2)
                 <$> inferred).
Proof.
  unfold resolvePorts. destruct declared as [|d declared]; [done|].
  rewrite decide_False by done.
  change (0 <? length (d :: declared))%nat with true. cbv iota.
  destruct (extractPortNumbersAndNames (d :: declared)) as [portNumbers portNames] eqn:He.
  pose proof (filterInferred_log_from portNumbers portNames inferred [] []) as Hf.
  unfold filterInferred.
  destruct (foldl _ _ inferred) as [resulting log]. simpl in *. done.
Qed.

Lemma Service_log (X : deps.t) (params : manifests.Params.t) :
  let meta := v1alpha1.AmazonCloudWatchAgent.ObjectMeta (manifests.Params.OtelCol params) in
  let declared :=
    v1alpha1.AmazonCloudWatchAgentSpec.Ports
      (v1alpha1.AmazonCloudWatchAgent.Spec (manifests.Params.OtelCol params)) in
  let inferred := deps.constants_CloudwatchAgentPorts X in
  (Service X params).2
  = (resolvePorts inferred declared).2
    ++ (if decide ((resolvePorts inferred declared).1 = []) then
          [logr.Info 1 "the instance's configuration didn't yield any ports to open, skipping service"
             [("instance.name", metav1.ObjectMeta.Name meta);
              ("instance.namespace", metav1.ObjectMeta.Namespace meta)]]
        else []).
Proof.
  intros meta declared inferred. unfold Service. fold meta declared inferred.
  destruct (resolvePorts inferred declared) as [ports log]. simpl.
  destruct ports as [|p ports]; simpl; [done|]. by rewrite app_nil_r.
Qed.


(** ** [extractPortNumbersAndNames] *)

(** X1. The two maps bind exactly the numbers and the names of the given
    ports, each to [true]: no key is bound to [false], and a number or name
    that does not occur is not bound. *)
Theorem extractPortNumbersAndNames_lookup (ports : list ServicePort.t) (n : Z) (s : string) :
  (extractPortNumbersAndNames ports).1 !! n
  = (if decide (n ∈ (ServicePort.Port <$> ports)) then Some true else None)
  ∧ (extractPortNumbersAndNames ports).2 !! s
    = (if decide (s ∈ (ServicePort.Name <$> ports)) then Some true else None).
Proof.
  pose proof (extract_lookup_from ports ∅ ∅ n s) as Hl. cbv zeta in Hl.
  rewrite !lookup_empty in Hl. exact Hl.
Qed.

(** ** [filterPort] *)

(** X2. A port returned by [filterPort] is the candidate with at most its
    name changed: number, protocol, application protocol, target port and
    node port are the candidate's, the name is the candidate's or
    [port-<number>], and neither the number nor the returned name is set in
    the given maps. *)
Theorem filterPort_preserves (candidate filtered : ServicePort.t)
    (portNumbers : gmap Z bool) (portNames : gmap string bool) :
  (filterPort candidate portNumbers portNames).1 = Some filtered →
  ServicePort.Port filtered = ServicePort.Port candidate
  ∧ ServicePort.Protocol filtered = ServicePort.Protocol candidate
  ∧ ServicePort.AppProtocol filtered = ServicePort.AppProtocol candidate
  ∧ ServicePort.TargetPort filtered = ServicePort.TargetPort candidate
  ∧ ServicePort.NodePort filtered = ServicePort.NodePort candidate
  ∧ (ServicePort.Name filtered = ServicePort.Name candidate
     ∨ ServicePort.Name filtered = "port-" +:+ pretty (ServicePort.Port candidate))
  ∧ mapBool portNumbers (ServicePort.Port filtered) = false
  ∧ mapBool portNames (ServicePort.Name filtered) = false.
Proof.
  intros Hres.
  destruct (filterPort_shape candidate portNumbers portNames)
    as [[_ Hf]|[(_ & _ & _ & Hf)|[(Hn & Hs & Hfb & Hf)|(Hn & Hs & Hf)]]];
    rewrite Hf in Hres; simplify_eq/=; auto 10.
Qed.

Lemma filterPort_preserves_witness :
  let declared := [example.port "metrics" 8888] in
  ServicePort.Port (ServicePort.withName (example.port "metrics" 4317) "port-4317") = 4317
  ∧ ServicePort.TargetPort (ServicePort.withName (example.port "metrics" 4317) "port-4317")
    = intstr.FromInt 4317.
Proof.
  intros declared.
  pose proof (filterPort_preserves (example.port "metrics" 4317)
                (ServicePort.withName (example.port "metrics" 4317) "port-4317")
                (extractPortNumbersAndNames declared).1
                (extractPortNumbersAndNames declared).2) as Hp.
  destruct Hp as (Hport & _ & _ & Htarget & _); [reflexivity|].
  split; [exact Hport | exact Htarget].
Defined.

(** X3. [filterPort] emits a record exactly when it drops a port whose
    number is free but whose name and fallback name are both taken: then it
    is one level-2 record carrying both names.  A port dropped for its
    number, and every port that is kept, leaves no record. *)
Theorem filterPort_diagnostic (candidate : ServicePort.t)
    (portNumbers : gmap Z bool) (portNames : gmap string bool) :
  let fallbackName := "port-" +:+ pretty (ServicePort.Port candidate) in
  let doubleCollision :=
    mapBool portNumbers (ServicePort.Port candidate) = false
    ∧ mapBool portNames (ServicePort.Name candidate) = true
    ∧ mapBool portNames fallbackName = true in
  (doubleCollision →
   (filterPort candidate portNumbers portNames).1 = None
   ∧ ∃ msg,
       (filterPort candidate portNumbers portNames).2
       = [logr.Info 2 msg [("inferred-port-name", ServicePort.Name candidate);
                           ("fallback-port-name", fallbackName)]])
  ∧ (¬ doubleCollision → (filterPort candidate portNumbers portNames).2 = []).
Proof.
  intros fallbackName doubleCollision. subst doubleCollision.
  destruct (filterPort_shape candidate portNumbers portNames)
    as [[Hn Hf]|[(Hn & Hs & Hfb & Hf)|[(Hn & Hs & Hfb & Hf)|(Hn & Hs & Hf)]]];
    change (Sprintf_port (ServicePort.Port candidate)) with fallbackName in *;
    rewrite Hf; simpl; split; try done.
  - intros (Hn' & _). congruence.
  - intros _. eauto.
  - intros Hnot. destruct Hnot. done.
  - intros (_ & _ & Hfb'). congruence.
  - intros (_ & Hs' & _). congruence.
Qed.

Lemma filterPort_diagnostic_witness :
  let declared := [example.port "metrics" 8888; example.port "port-4317" 9999] in
  let portNumbers := (extractPortNumbersAndNames declared).1 in
  let portNames := (extractPortNumbersAndNames declared).2 in
  length (filterPort (example.port "metrics" 4317) portNumbers portNames).2 = 1%nat
  ∧ (filterPort (example.port "metrics" 8888) portNumbers portNames).2 = [].
Proof.
  intros declared portNumbers portNames. split.
  - pose proof (filterPort_diagnostic (example.port "metrics" 4317) portNumbers portNames)
      as Hd.
    cbv zeta in Hd. destruct Hd as [Hd _].
    destruct Hd as (_ & msg & ->); [repeat split|]. reflexivity.
  - pose proof (filterPort_diagnostic (example.port "metrics" 8888) portNumbers portNames)
      as Hd.
    cbv zeta in Hd. destruct Hd as [_ Hd]. apply Hd.
    intros (Hn & _). revert Hn. compute_done.
Defined.

(** ** [Service] *)



(** X5. With no declared port the descriptor carries the built-in port
    table as it is, duplicates included, and nothing is logged; with an
    empty built-in table it carries the declared ports as they are. *)
Theorem Service_pass_through (X : deps.t) (params : manifests.Params.t) (svc : Service.t) :
  let declared :=
    v1alpha1.AmazonCloudWatchAgentSpec.Ports
      (v1alpha1.AmazonCloudWatchAgent.Spec (manifests.Params.OtelCol params)) in
  let inferred := deps.constants_CloudwatchAgentPorts X in
  (Service X params).1.1 = Some svc →
  (declared = [] →
   ServiceSpec.Ports (Service.Spec svc) = inferred ∧ (Service X params).2 = [])
  ∧ (inferred = [] →
     ServiceSpec.Ports (Service.Spec svc) = declared ∧ (Service X params).2 = []).
Proof.
  intros declared inferred Hsvc.
  pose proof (Service_log X params) as Hlog. cbv zeta in Hlog.
  fold declared inferred in Hlog.
  apply Service_some in Hsvc as [Hne ->]. simpl. fold declared inferred in Hne |- *.
  rewrite Hlog, decide_False by done. rewrite app_nil_r, resolvePorts_log, resolvePorts_eq.
  split.
  - intros Hd. rewrite Hd. split; [|done]. simpl.
    clear. induction inferred as [|p l IH]; [done|]. simpl. rewrite keep_nil. simpl.
    by f_equal.
  - intros Hi. rewrite Hi. simpl. rewrite app_nil_r. split; [done|].
    by destruct (decide (declared = [])).
Qed.

Lemma Service_pass_through_witness :
  let builtin := [example.port "otlp" 4317; example.port "otlp" 4317] in
  ∃ svc,
    (Service (example.collaborators builtin) (example.instance ∅ "deployment" "" [])).1.1
    = Some svc
    ∧ ServiceSpec.Ports (Service.Spec svc) = builtin.
Proof.
  intros builtin. eexists. split; [reflexivity|].
  eapply (Service_pass_through (example.collaborators builtin)
            (example.instance ∅ "deployment" "" [])); reflexivity.
Defined.

(** X6. Every port that follows the declared ports in the descriptor comes
    from a built-in port with the same number, and shares neither its number
    nor its name with a declared port. *)
Theorem Service_survivors_fresh (X : deps.t) (params : manifests.Params.t) (svc : Service.t) :
  let declared :=
    v1alpha1.AmazonCloudWatchAgentSpec.Ports
      (v1alpha1.AmazonCloudWatchAgent.Spec (manifests.Params.OtelCol params)) in
  let inferred := deps.constants_CloudwatchAgentPorts X in
  (Service X params).1.1 = Some svc →
  ∃ surviving,
    ServiceSpec.Ports (Service.Spec svc) = declared ++ surviving
    ∧ ∀ q, q ∈ surviving →
           (ServicePort.Port q ∉ (ServicePort.Port <$> declared))
           ∧ (ServicePort.Name q ∉ (ServicePort.Name <$> declared))
           ∧ ∃ p, p ∈ inferred ∧ ServicePort.Port p = ServicePort.Port q.
Proof.
  intros declared inferred Hsvc. apply Service_some in Hsvc as [_ ->]. simpl.
  exists (omap (keep declared) inferred). split; [apply resolvePorts_eq|].
  intros q (p & Hp & Hport & Hn & Hs & _)%survivor_origin. eauto 10.
Qed.

Lemma Service_survivors_fresh_witness :
  let X := example.collaborators [example.port "metrics" 4317; example.port "zpages" 8888] in
  let params := example.instance ∅ "deployment" "" [example.port "metrics" 8888] in
  ∃ svc surviving,
    (Service X params).1.1 = Some svc
    ∧ ServiceSpec.Ports (Service.Spec svc) = [example.port "metrics" 8888] ++ surviving
    ∧ ∀ q, q ∈ surviving → ServicePort.Port q ≠ 8888 ∧ ServicePort.Name q ≠ "metrics".
Proof.
  intros X params. eexists.
  edestruct (Service_survivors_fresh X params) as (surviving & Hports & Hfresh);
    [reflexivity|].
  exists surviving. split; [reflexivity|]. split; [exact Hports|].
  intros q Hq. destruct (Hfresh q Hq) as (Hn & Hs & _). split.
  - intros Heq. apply Hn. rewrite Heq. compute_done.
  - intros Heq. apply Hs. rewrite Heq. compute_done.
Defined.

(** ** The resolver as a whole *)

Lemma keep_account (declared : list ServicePort.t) (p : ServicePort.t) :
  (length (option_list (keep declared p))
   + (if decide (ServicePort.Port p ∈ (ServicePort.Port <$> declared)) then 1 else 0)
   + length (filterPort p (extractPortNumbersAndNames declared).1
                          (extractPortNumbersAndNames declared).2).2
   = 1)%nat
  ∧ Forall (λ r, ∃ msg kv, r = logr.Info 2 msg kv)
           (filterPort p (extractPortNumbersAndNames declared).1
                         (extractPortNumbersAndNames declared).2).2.
Proof.
  unfold keep. pose proof (extract_numbers declared (ServicePort.Port p)) as Hmem.
  destruct (filterPort_shape p (extractPortNumbersAndNames declared).1
                               (extractPortNumbersAndNames declared).2)
    as [[Hn Hf]|[(Hn & _ & _ & Hf)|[(Hn & _ & _ & Hf)|(Hn & _ & Hf)]]];
    rewrite Hf; simpl.
  - rewrite decide_True by (by apply Hmem). done.
  - rewrite decide_False by (intros Hin; apply Hmem in Hin; congruence).
    split; [done|]. repeat constructor. eauto.
  - rewrite decide_False by (intros Hin; apply Hmem in Hin; congruence). done.
  - rewrite decide_False by (intros Hin; apply Hmem in Hin; congruence). done.
Qed.

Lemma keep_same_sets (declared declared' : list ServicePort.t) (p : ServicePort.t) :
  (∀ n, n ∈ (ServicePort.Port <$> declared) ↔ n ∈ (ServicePort.Port <$> declared')) →
  (∀ s, s ∈ (ServicePort.Name <$> declared) ↔ s ∈ (ServicePort.Name <$> declared')) →
  keep declared p = keep declared' p.
Proof.
  intros Hn Hs.
  specialize (Hn (ServicePort.Port p)).
  pose proof (Hs (ServicePort.Name p)) as Hs1.
  pose proof (Hs (Sprintf_port (ServicePort.Port p))) as Hs2.
  destruct (keep_cases declared p)
    as [[? Hk]|[(? & ? & ? & Hk)|[(? & ? & ? & Hk)|(? & ? & Hk)]]];
    destruct (keep_cases declared' p)
      as [[? Hk']|[(? & ? & ? & Hk')|[(? & ? & ? & Hk')|(? & ? & Hk')]]];
    rewrite Hk, Hk'; try done; exfalso; tauto.
Qed.

Lemma omap_keep_none (declared inferred : list ServicePort.t) :
  (∀ p, p ∈ inferred → keep declared p = None) → omap (keep declared) inferred = [].
Proof.
  induction inferred as [|p l IH]; intros Hall; [done|]. simpl.
  rewrite (Hall p) by (by left). apply IH. intros q Hq. apply Hall. by right.
Qed.

(** X7. Every built-in port is accounted for once: it is dropped without a
    record because its number is declared, or dropped with one level-2
    record, or it is in the resolved list after the declared ports. *)
Theorem resolvePorts_accounting (inferred declared : list ServicePort.t) :
  (length (resolvePorts inferred declared).1
   + length (filter (λ p, ServicePort.Port p ∈ (ServicePort.Port <$> declared)) inferred)
   + length (resolvePorts inferred declared).2
   = length declared + length inferred)%nat
  ∧ Forall (λ r, ∃ msg kv, r = logr.Info 2 msg kv) (resolvePorts inferred declared).2.
Proof.
  rewrite resolvePorts_eq, resolvePorts_log, length_app.
  assert ((length (omap (keep declared) inferred)
           + length (filter (λ p, ServicePort.Port p ∈ (ServicePort.Port <$> declared))
                            inferred)
           + length (concat ((λ p, (filterPort p (extractPortNumbersAndNames declared).1
                                                 (extractPortNumbersAndNames declared).2).2)
                             <$> inferred))
           = length inferred)%nat
          ∧ Forall (λ r, ∃ msg kv, r = logr.Info 2 msg kv)
                   (concat ((λ p, (filterPort p (extractPortNumbersAndNames declared).1
                                                (extractPortNumbersAndNames declared).2).2)
                            <$> inferred))) as [Hsum Hall].
  { induction inferred as [|p l [IHsum IHall]]; [by split|].
    destruct (keep_account declared p) as [Hone Hrec].
    csimpl. rewrite filter_cons, length_app. split.
    - destruct (keep declared p); case_decide; csimpl in *; lia.
    - by apply Forall_app. }
  destruct (decide (declared = [])) as [->|Hne].
  - split; [|done].
    assert (omap (keep []) inferred = inferred) as Hall'.
    { clear. induction inferred as [|p l IH]; [done|]. simpl. rewrite keep_nil. simpl.
      by f_equal. }
    rewrite Hall' in Hsum |- *. cbn [length]. lia.
  - split; [lia | done].
Qed.

(** X8. The ports that survive depend on the declared list only through the
    set of its numbers and the set of its names: two declared lists with the
    same numbers and the same names, in any order and with any repetition,
    are followed by the same survivors. *)
Theorem resolvePorts_declared_sets (inferred declared declared' : list ServicePort.t) :
  (∀ n, n ∈ (ServicePort.Port <$> declared) ↔ n ∈ (ServicePort.Port <$> declared')) →
  (∀ s, s ∈ (ServicePort.Name <$> declared) ↔ s ∈ (ServicePort.Name <$> declared')) →
  ∃ surviving,
    (resolvePorts inferred declared).1 = declared ++ surviving
    ∧ (resolvePorts inferred declared').1 = declared' ++ surviving.
Proof.
  intros Hn Hs. exists (omap (keep declared) inferred).
  split; [apply resolvePorts_eq|]. rewrite resolvePorts_eq. f_equal.
  induction inferred as [|p l IH]; [done|]. csimpl.
  rewrite (keep_same_sets declared declared' p) by done. by rewrite IH.
Qed.

Lemma resolvePorts_declared_sets_witness :
  let a := example.port "metrics" 8888 in
  let b := example.port "otlp" 4318 in
  let inferred := [example.port "metrics" 4317; example.port "otlp-http" 4318] in
  ∃ surviving,
    (resolvePorts inferred [a; b]).1 = [a; b] ++ surviving
    ∧ (resolvePorts inferred [b; a; a]).1 = [b; a; a] ++ surviving.
Proof.
  intros a b inferred. apply (resolvePorts_declared_sets inferred [a; b] [b; a; a]).
  - intros n. simpl. rewrite !elem_of_cons, !elem_of_nil. tauto.
  - intros s. simpl. rewrite !elem_of_cons, !elem_of_nil. tauto.
Defined.

(** X9. Resolution is stable: declaring the ports of a descriptor [Service]
    returned gives a descriptor with the same ports. *)
Theorem Service_ports_stable (X : deps.t) (params params' : manifests.Params.t)
    (svc : Service.t) :
  (Service X params).1.1 = Some svc →
  v1alpha1.AmazonCloudWatchAgentSpec.Ports
    (v1alpha1.AmazonCloudWatchAgent.Spec (manifests.Params.OtelCol params'))
  = ServiceSpec.Ports (Service.Spec svc) →
  ∃ svc',
    (Service X params').1 = (Some svc', None)
    ∧ ServiceSpec.Ports (Service.Spec svc') = ServiceSpec.Ports (Service.Spec svc).
Proof.
  intros Hsvc Hports. apply Service_some in Hsvc as [Hne ->]. simpl in *.
  set (inferred := deps.constants_CloudwatchAgentPorts X) in *.
  set (declared := v1alpha1.AmazonCloudWatchAgentSpec.Ports
                     (v1alpha1.AmazonCloudWatchAgent.Spec (manifests.Params.OtelCol params)))
    in *.
  set (out := (resolvePorts inferred declared).1) in *.
  assert ((resolvePorts inferred out).1 = out) as Hstable.
  { rewrite resolvePorts_eq. rewrite omap_keep_none; [by rewrite app_nil_r|].
    intros p Hp.
    assert (ServicePort.Port <$> declared ⊆ ServicePort.Port <$> out) as Hnum.
    { intros n Hn. unfold out. rewrite resolvePorts_eq, fmap_app. apply elem_of_app. by left. }
    assert (ServicePort.Name <$> declared ⊆ ServicePort.Name <$> out) as Hnam.
    { intros n Hn. unfold out. rewrite resolvePorts_eq, fmap_app. apply elem_of_app. by left. }
    assert (∀ q, keep declared p = Some q → ServicePort.Port p ∈ (ServicePort.Port <$> out))
      as Hkept.
    { intros q Hq. unfold out. rewrite resolvePorts_eq, fmap_app. apply elem_of_app. right.
      assert (q ∈ omap (keep declared) inferred) as Hin.
      { apply list_elem_of_omap. eauto. }
      pose proof Hin as (p' & _ & Hport & _)%survivor_origin.
      assert (ServicePort.Port q = ServicePort.Port p) as <-.
      { destruct (keep_cases declared p)
          as [[_ Hk]|[(_ & _ & _ & Hk)|[(_ & _ & _ & Hk)|(_ & _ & Hk)]]];
          rewrite Hk in Hq; by simplify_eq/=. }
      by apply list_elem_of_fmap_2. }
    destruct (keep_cases out p)
      as [[_ Hk]|[(_ & _ & _ & Hk)|[(Hn & Hs & Hf & Hk)|(Hn & Hs & Hk)]]];
      [done | done | exfalso | exfalso];
      destruct (keep_cases declared p)
        as [[Hn' Hk']|[(Hn' & Hs' & Hf' & Hk')|[(_ & _ & _ & Hk')|(_ & _ & Hk')]]];
      try (apply Hn; eapply Hkept; exact Hk').
    - apply Hn. by apply Hnum.
    - apply Hf. by apply Hnam.
    - apply Hn. by apply Hnum.
    - apply Hs. by apply Hnam. }
  destruct (Service_nonempty X params') as [svc' Hsvc'].
  { rewrite Hports. simpl. fold inferred out. by rewrite Hstable. }
  exists svc'. split; [done|].
  assert ((Service X params').1.1 = Some svc') as Hsome by (by rewrite Hsvc').
  apply Service_some in Hsome as [_ ->]. simpl. rewrite Hports. simpl.
  fold inferred out. exact Hstable.
Qed.

Lemma Service_ports_stable_witness :
  let X := example.collaborators [example.port "metrics" 4317; example.port "otlp" 4318] in
  let resolved :=
    [example.port "metrics" 8888; example.port "port-4317" 4317; example.port "otlp" 4318] in
  ∃ svc',
    (Service X (example.instance ∅ "deployment" "" resolved)).1 = (Some svc', None)
    ∧ ServiceSpec.Ports (Service.Spec svc') = resolved.
Proof.
  intros X resolved.
  edestruct (Service_ports_stable X
               (example.instance ∅ "deployment" "" [example.port "metrics" 8888])
               (example.instance ∅ "deployment" "" resolved))
    as (svc' & Hsvc' & Hports); [reflexivity | reflexivity |].
  exists svc'. split; [exact Hsvc' | exact Hports].
Defined.

(** X10. Two ports that [filterPort] keeps under fallback names, for the
    same maps and with different numbers, get different names. *)
Theorem filterPort_fallback_distinct (c1 c2 q1 q2 : ServicePort.t)
    (portNumbers : gmap Z bool) (portNames : gmap string bool) :
  (filterPort c1 portNumbers portNames).1 = Some q1 →
  (filterPort c2 portNumbers portNames).1 = Some q2 →
  mapBool portNames (ServicePort.Name c1) = true →
  mapBool portNames (ServicePort.Name c2) = true →
  ServicePort.Port c1 ≠ ServicePort.Port c2 →
  ServicePort.Name q1 ≠ ServicePort.Name q2.
Proof.
  intros H1 H2 Hs1 Hs2 Hne.
  destruct (filterPort_shape c1 portNumbers portNames)
    as [[_ Hf]|[(_ & _ & _ & Hf)|[(_ & _ & _ & Hf)|(_ & Hs & Hf)]]];
    rewrite Hf in H1; simpl in H1; [done | done | | congruence].
  destruct (filterPort_shape c2 portNumbers portNames)
    as [[_ Hf']|[(_ & _ & _ & Hf')|[(_ & _ & _ & Hf')|(_ & Hs' & Hf')]]];
    rewrite Hf' in H2; simpl in H2; [done | done | | congruence].
  injection H1 as <-. injection H2 as <-. simpl.
  intros Heq. by apply Sprintf_port_inj in Heq.
Qed.

Lemma filterPort_fallback_distinct_witness :
  let declared := [example.port "metrics" 8888; example.port "otlp" 9999] in
  ServicePort.Name (ServicePort.withName (example.port "metrics" 4317) "port-4317")
  ≠ ServicePort.Name (ServicePort.withName (example.port "otlp" 4318) "port-4318").
Proof.
  intros declared.
  apply (filterPort_fallback_distinct
           (example.port "metrics" 4317) (example.port "otlp" 4318) _ _
           (extractPortNumbersAndNames declared).1
           (extractPortNumbersAndNames declared).2);
    first [reflexivity | compute_done].
Defined.

(** ** [HeadlessService] *)

(** X11. [HeadlessService] changes nothing of the base descriptor but the
    name, one label, the annotations and [ClusterIP]: namespace, ports,
    selector and internal traffic policy are those of the base descriptor,
    and every label other than the headless label is as in the base. *)
Theorem HeadlessService_preserves (X : deps.t) (params : manifests.Params.t)
    (base h : Service.t) :
  (Service X params).1.1 = Some base →
  (HeadlessService X params).1.1 = Some h →
  metav1.ObjectMeta.Namespace (Service.ObjectMeta h)
  = metav1.ObjectMeta.Namespace (Service.ObjectMeta base)
  ∧ ServiceSpec.Ports (Service.Spec h) = ServiceSpec.Ports (Service.Spec base)
  ∧ ServiceSpec.Selector (Service.Spec h) = ServiceSpec.Selector (Service.Spec base)
  ∧ ServiceSpec.InternalTrafficPolicy (Service.Spec h)
    = ServiceSpec.InternalTrafficPolicy (Service.Spec base)
  ∧ ∀ k, k ≠ "operator.opentelemetry.io/collector-headless-service" →
         metav1.ObjectMeta.Labels (Service.ObjectMeta h) !! k
         = metav1.ObjectMeta.Labels (Service.ObjectMeta base) !! k.
Proof.
  intros Hbase Hh.
  assert ((Service X params).1 = (Some base, None)) as Hpair.
  { pose proof (Service_error X params) as Herr.
    destruct (Service X params) as [[b e] log]. simpl in *. by subst. }
  rewrite (HeadlessService_some X params base Hpair) in Hh. simpl in Hh.
  injection Hh as <-. simpl. repeat split.
  intros k Hk. by rewrite lookup_insert_ne.
Qed.

Lemma HeadlessService_preserves_witness :
  let X := example.collaborators [example.port "otlp" 4317] in
  let params := example.instance ∅ "daemonset" "" [example.port "metrics" 8888] in
  ∃ h,
    (HeadlessService X params).1.1 = Some h
    ∧ ServiceSpec.Ports (Service.Spec h)
      = [example.port "metrics" 8888; example.port "otlp" 4317]
    ∧ ServiceSpec.InternalTrafficPolicy (Service.Spec h) = Some "Local".
Proof.
  intros X params. eexists. split; [reflexivity|].
  edestruct (HeadlessService_preserves X params) as (_ & Hports & _ & Hpolicy & _);
    [reflexivity | reflexivity |].
  split; [rewrite Hports | rewrite Hpolicy]; reflexivity.
Defined.

(** X12. The annotations of the headless descriptor always bind the
    serving-certificate key, and bind every other key exactly as the
    instance's annotations do: nothing is removed and nothing else is
    added. *)
Theorem HeadlessService_annotations (X : deps.t) (params : manifests.Params.t)
    (h : Service.t) :
  let annotations :=
    metav1.ObjectMeta.Annotations
      (v1alpha1.AmazonCloudWatchAgent.ObjectMeta (manifests.Params.OtelCol params)) in
  (HeadlessService X params).1.1 = Some h →
  is_Some (metav1.ObjectMeta.Annotations (Service.ObjectMeta h)
             !! "service.beta.openshift.io/serving-cert-secret-name")
  ∧ (∀ k, k ≠ "service.beta.openshift.io/serving-cert-secret-name" →
          metav1.ObjectMeta.Annotations (Service.ObjectMeta h) !! k = annotations !! k)
  ∧ dom (metav1.ObjectMeta.Annotations (Service.ObjectMeta h))
    = dom annotations ∪ {[ "service.beta.openshift.io/serving-cert-secret-name" ]}.
Proof.
  intros annotations Hh.
  assert (∃ b, (Service X params).1 = (Some b, None)) as [b Hb].
  { pose proof (Service_error X params) as Herr. unfold HeadlessService in Hh.
    destruct (Service X params) as [[[b|] [e|]] log]; simpl in *; try done. eauto. }
  rewrite (HeadlessService_some X params b Hb) in Hh. simpl in Hh. injection Hh as <-.
  assert ((Service X params).1.1 = Some b) as Hsome by (by rewrite Hb).
  apply Service_some in Hsome as [_ ->]. simpl. fold annotations.
  rewrite headlessAnnotations_union. unfold servingCertKey. split; [|split].
  - destruct (annotations !! "service.beta.openshift.io/serving-cert-secret-name")
      as [v|] eqn:Hv.
    + exists v. by apply lookup_union_Some_l.
    + rewrite lookup_union_r by done. rewrite lookup_singleton_eq. eauto.
  - intros k Hk. rewrite lookup_union_l; [done|]. by rewrite lookup_singleton_ne.
  - by rewrite dom_union_L, dom_singleton_L.
Qed.

Lemma HeadlessService_annotations_witness :
  let X := example.collaborators [] in
  let params :=
    example.instance {[ "team" := "obs" ]} "deployment" "" [example.port "metrics" 8888] in
  ∃ h,
    (HeadlessService X params).1.1 = Some h
    ∧ metav1.ObjectMeta.Annotations (Service.ObjectMeta h) !! "team" = Some "obs"
    ∧ metav1.ObjectMeta.Annotations (Service.ObjectMeta h) !! "owner" = None.
Proof.
  intros X params. eexists. split; [reflexivity|].
  pose proof (HeadlessService_annotations X params) as Ha. cbv zeta in Ha.
  edestruct Ha as (_ & Hother & _); [reflexivity|].
  split; (rewrite Hother; [reflexivity | compute_done]).
Defined.

(** X13. [HeadlessService] never returns an error, returns no descriptor
    exactly when [Service] returns none, and emits the records of [Service]
    and no other. *)
Theorem HeadlessService_outcome (X : deps.t) (params : manifests.Params.t) :
  (HeadlessService X params).1.2 = None
  ∧ ((HeadlessService X params).1.1 = None ↔ (Service X params).1.1 = None)
  ∧ (HeadlessService X params).2 = (Service X params).2.
Proof.
  pose proof (Service_error X params) as Herr. unfold HeadlessService.
  destruct (Service X params) as [[[b|] [e|]] log]; simpl in *; try done.
Qed.

(** ** [MonitoringService] *)

(** X14. [MonitoringService] returns either a descriptor or an error, never
    both and never neither.  When the configuration text does not parse it
    emits one error record and [adapters.ConfigToMetricsPort] is not
    called; when the text parses it emits no record of its own, the
    records being those [adapters.ConfigToMetricsPort] writes to the logger.
    Its outcome does not depend on the declared ports or on the mode. *)
Theorem MonitoringService_outcome (X : deps.t) (params : manifests.Params.t) :
  let config :=
    v1alpha1.AmazonCloudWatchAgentSpec.Config
      (v1alpha1.AmazonCloudWatchAgent.Spec (manifests.Params.OtelCol params)) in
  ((MonitoringService X params).1.1 = None ↔ (MonitoringService X params).1.2 ≠ None)
  ∧ (∀ err, deps.adapters_ConfigFromString X config = inl err →
            ∃ msg, (MonitoringService X params).2 = [logr.Error err msg])
  ∧ (∀ c, deps.adapters_ConfigFromString X config = inr c →
          (MonitoringService X params).2 = deps.adapters_ConfigToMetricsPort_log X c)
  ∧ ∀ ports mode,
      MonitoringService X
        (manifests.Params.mk
           (v1alpha1.AmazonCloudWatchAgent.mk
              (v1alpha1.AmazonCloudWatchAgent.ObjectMeta (manifests.Params.OtelCol params))
              (v1alpha1.AmazonCloudWatchAgentSpec.mk ports mode
                 (v1alpha1.AmazonCloudWatchAgentSpec.Image
                    (v1alpha1.AmazonCloudWatchAgent.Spec (manifests.Params.OtelCol params)))
                 config)))
      = MonitoringService X params.
Proof.
  intros config. unfold MonitoringService. simpl. fold config.
  destruct (deps.adapters_ConfigFromString X config) as [err|c]; simpl.
  - repeat split; try done. intros e [= <-]. eauto.
  - destruct (deps.adapters_ConfigToMetricsPort X c) as [err|metricsPort]; simpl;
      repeat split; try done; by intros ? [= <-].
Qed.

Lemma MonitoringService_outcome_witness :
  let X := example.collaborators [] in
  length (MonitoringService X (example.instance ∅ "deployment" "" [])).2 = 1%nat
  ∧ (MonitoringService X (example.instance ∅ "deployment" "receivers: {}" [])).2
    = [logr.Info 0 "no metrics port in the configuration" [("config", "receivers: {}")]]
  ∧ (MonitoringService X (example.instance ∅ "deployment" "8888" [])).2 = [].
Proof.
  intros X. split; [|split].
  - pose proof (MonitoringService_outcome X (example.instance ∅ "deployment" "" [])) as Hm.
    cbv zeta in Hm. destruct Hm as (_ & Hlog & _).
    destruct (Hlog "empty configuration") as [msg ->]; reflexivity.
  - pose proof (MonitoringService_outcome X
                  (example.instance ∅ "deployment" "receivers: {}" [])) as Hm.
    cbv zeta in Hm. destruct Hm as (_ & _ & Hcallee & _).
    rewrite (Hcallee "receivers: {}"); reflexivity.
  - pose proof (MonitoringService_outcome X (example.instance ∅ "deployment" "8888" [])) as Hm.
    cbv zeta in Hm. destruct Hm as (_ & _ & Hcallee & _).
    rewrite (Hcallee "8888"); reflexivity.
Defined.

(** ** [getDefaultInstrumentation] *)

(** X15. The result depends on the environment only through the two image
    variables: environments that agree on them give the same result,
    whatever else they hold. *)
Theorem getDefaultInstrumentation_two_variables (environ environ' : gmap string string) :
  environ !! "AUTO_INSTRUMENTATION_JAVA" = environ' !! "AUTO_INSTRUMENTATION_JAVA" →
  environ !! "AUTO_INSTRUMENTATION_PYTHON" = environ' !! "AUTO_INSTRUMENTATION_PYTHON" →
  getDefaultInstrumentation environ = getDefaultInstrumentation environ'.
Proof.
  intros Hjava Hpython. unfold getDefaultInstrumentation, LookupEnv.
  by rewrite Hjava, Hpython.
Qed.

Lemma getDefaultInstrumentation_two_variables_witness :
  getDefaultInstrumentation
    {[ "AUTO_INSTRUMENTATION_JAVA" := "java:1"; "AUTO_INSTRUMENTATION_PYTHON" := "python:1" ]}
  = getDefaultInstrumentation
      {[ "AUTO_INSTRUMENTATION_JAVA" := "java:1"; "AUTO_INSTRUMENTATION_PYTHON" := "python:1";
         "AUTO_INSTRUMENTATION_DOTNET" := "dotnet:1"; "HOME" := "/root" ]}.
Proof.
  apply getDefaultInstrumentation_two_variables; reflexivity.
Defined.

(** X16. Every descriptor the builder returns has the same identity: kind
    [Instrumentation], API version [cloudwatch.aws.amazon.com/v1alpha1],
    name [java-instrumentation], namespace [default], no labels or
    annotations, and the four propagators in the order trace context,
    baggage, B3, X-Ray; its two images are the values of the two
    variables. *)
Theorem getDefaultInstrumentation_identity (environ : gmap string string)
    (d : v1alpha1.Instrumentation.t) :
  (getDefaultInstrumentation environ).1 = Some d →
  v1alpha1.Instrumentation.TypeMeta d
  = metav1.TypeMeta.mk "Instrumentation" "cloudwatch.aws.amazon.com/v1alpha1"
  ∧ v1alpha1.Instrumentation.ObjectMeta d
    = metav1.ObjectMeta.mk "java-instrumentation" "default" ∅ ∅
  ∧ v1alpha1.InstrumentationSpec.Propagators (v1alpha1.Instrumentation.Spec d)
    = [v1alpha1.TraceContext; v1alpha1.Baggage; v1alpha1.B3; v1alpha1.XRay]
  ∧ environ !! "AUTO_INSTRUMENTATION_JAVA"
    = Some (v1alpha1.Java.Image
              (v1alpha1.InstrumentationSpec.Java (v1alpha1.Instrumentation.Spec d)))
  ∧ environ !! "AUTO_INSTRUMENTATION_PYTHON"
    = Some (v1alpha1.Python.Image
              (v1alpha1.InstrumentationSpec.Python (v1alpha1.Instrumentation.Spec d))).
Proof.
  unfold getDefaultInstrumentation, LookupEnv.
  destruct (environ !! "AUTO_INSTRUMENTATION_JAVA") as [java|]; [|done].
  destruct (environ !! "AUTO_INSTRUMENTATION_PYTHON") as [python|]; [|done].
  intros [= <-]. done.
Qed.

Lemma getDefaultInstrumentation_identity_witness :
  ∃ d,
    (getDefaultInstrumentation
       {[ "AUTO_INSTRUMENTATION_JAVA" := ""; "AUTO_INSTRUMENTATION_PYTHON" := "python:1" ]}).1
    = Some d
    ∧ metav1.ObjectMeta.Name (v1alpha1.Instrumentation.ObjectMeta d) = "java-instrumentation".
Proof.
  eexists. split; [reflexivity|].
  edestruct (getDefaultInstrumentation_identity
               {[ "AUTO_INSTRUMENTATION_JAVA" := "";
                  "AUTO_INSTRUMENTATION_PYTHON" := "python:1" ]})
    as (_ & Hmeta & _); [reflexivity|].
  rewrite Hmeta. reflexivity.
Defined.

(** ** The three variants of one instance *)

(** X17. The descriptors built for one instance agree on what they take
    from it: each has the instance's namespace and the selector labels of
    the instance; the base and the monitoring descriptor carry the
    instance's annotations unchanged and the labels computed for their own
    name, whereas the headless descriptor carries the labels computed for
    the base name, with the headless label set.  Only the base and the
    headless descriptor set an internal traffic policy. *)
Theorem variants_agree (X : deps.t) (params : manifests.Params.t)
    (base h m : Service.t) :
  let meta := v1alpha1.AmazonCloudWatchAgent.ObjectMeta (manifests.Params.OtelCol params) in
  let image :=
    v1alpha1.AmazonCloudWatchAgentSpec.Image
      (v1alpha1.AmazonCloudWatchAgent.Spec (manifests.Params.OtelCol params)) in
  let labelsFor name :=
    deps.manifestutils_Labels X meta name image (deps.ComponentAmazonCloudWatchAgent X) [] in
  (Service X params).1.1 = Some base →
  (HeadlessService X params).1.1 = Some h →
  (MonitoringService X params).1.1 = Some m →
  (metav1.ObjectMeta.Namespace (Service.ObjectMeta base) = metav1.ObjectMeta.Namespace meta
   ∧ metav1.ObjectMeta.Namespace (Service.ObjectMeta h) = metav1.ObjectMeta.Namespace meta
   ∧ metav1.ObjectMeta.Namespace (Service.ObjectMeta m) = metav1.ObjectMeta.Namespace meta)
  ∧ (ServiceSpec.Selector (Service.Spec base) = ServiceSpec.Selector (Service.Spec m)
     ∧ ServiceSpec.Selector (Service.Spec h) = ServiceSpec.Selector (Service.Spec m))
  ∧ (metav1.ObjectMeta.Annotations (Service.ObjectMeta base)
     = metav1.ObjectMeta.Annotations meta
     ∧ metav1.ObjectMeta.Annotations (Service.ObjectMeta m)
       = metav1.ObjectMeta.Annotations meta)
  ∧ (metav1.ObjectMeta.Labels (Service.ObjectMeta base)
     = labelsFor (metav1.ObjectMeta.Name (Service.ObjectMeta base))
     ∧ metav1.ObjectMeta.Labels (Service.ObjectMeta m)
       = labelsFor (metav1.ObjectMeta.Name (Service.ObjectMeta m))
     ∧ metav1.ObjectMeta.Labels (Service.ObjectMeta h)
       = <["operator.opentelemetry.io/collector-headless-service" := "Exists"]>
           (labelsFor (metav1.ObjectMeta.Name (Service.ObjectMeta base))))
  ∧ (is_Some (ServiceSpec.InternalTrafficPolicy (Service.Spec base))
     ∧ ServiceSpec.InternalTrafficPolicy (Service.Spec h)
       = ServiceSpec.InternalTrafficPolicy (Service.Spec base)
     ∧ ServiceSpec.InternalTrafficPolicy (Service.Spec m) = None).
Proof.
  intros meta image labelsFor Hbase Hh Hm.
  assert ((Service X params).1 = (Some base, None)) as Hpair.
  { pose proof (Service_error X params) as Herr.
    destruct (Service X params) as [[b e] log]. simpl in *. by subst. }
  rewrite (HeadlessService_some X params base Hpair) in Hh. simpl in Hh.
  injection Hh as <-.
  apply Service_some in Hbase as [_ ->].
  unfold MonitoringService in Hm.
  destruct (deps.adapters_ConfigFromString X _) as [err|c]; [done|].
  destruct (deps.adapters_ConfigToMetricsPort X c) as [err|metricsPort]; [done|].
  simpl in Hm. injection Hm as <-. simpl. repeat split. eauto.
Qed.

Lemma variants_agree_witness :
  let X := example.collaborators [] in
  let params :=
    example.instance {[ "team" := "obs" ]} "daemonset" "8888" [example.port "metrics" 8888] in
  ∃ base h m,
    (Service X params).1.1 = Some base
    ∧ (HeadlessService X params).1.1 = Some h
    ∧ (MonitoringService X params).1.1 = Some m
    ∧ ServiceSpec.Selector (Service.Spec h) = ServiceSpec.Selector (Service.Spec m)
    ∧ ServiceSpec.InternalTrafficPolicy (Service.Spec m) = None.
Proof.
  intros X params. eexists _, _, _.
  split; [reflexivity|]. split; [reflexivity|]. split; [reflexivity|].
  pose proof (variants_agree X params) as Hv. cbv zeta in Hv.
  edestruct Hv as (_ & (_ & Hsel) & _ & _ & (_ & _ & Hpolicy));
    [reflexivity | reflexivity | reflexivity |].
  split; [exact Hsel | exact Hpolicy].
Defined.
